(** * AD937x device wrapper (mpm/lib/mykonos/ad937x_device.cpp)

    A shallow embedding of the chip-control wrapper: the unit conversions
    on IEEE-754 binary64 values, the gain-pin configuration store, the
    config-state bracketing and the initialization sequence, run against
    an explicit model of the vendor API, the monotonic clock and the
    firmware file. *)

From Stdlib Require Import ZArith List Bool Lia Floats.
Import ListNotations.

#[local] Set Warnings "-inexact-float".
Local Open Scope Z_scope.

(** ** C++ [double] and its conversions

    A [double] is a primitive binary64 float; arithmetic is the
    kernel's correctly rounded arithmetic (round to nearest, ties to
    even), which is what the compiled code runs. *)
Module Double.

(** The integer part of a finite double, rounded toward zero, as a
    floating-integral conversion does.  [None] for NaN and the
    infinities. *)
Definition truncate (x : float) : option Z :=
  match Prim2SF x with
  | S754_zero _ => Some 0
  | S754_finite s m e => Some (cond_Zopp s (Z.shiftl (Zpos m) e))
  | S754_infinity _ | S754_nan => None
  end.

(** [static_cast<uintW_t>(x)].  The fractional part is discarded.  The
    language leaves the result undefined when the truncated value does
    not fit in W bits; the embedding is total and keeps the low W bits
    there (0 for NaN and the infinities).  Theorems that rely on the
    value of a cast state the range on which it is defined. *)
Definition to_unsigned (w : Z) (x : float) : Z :=
  match truncate x with
  | Some z => z mod 2 ^ w
  | None => 0
  end.

(** The cast is defined by the language exactly when the truncated
    value is representable. *)
Definition cast_defined (w : Z) (x : float) : bool :=
  match truncate x with
  | Some z => (0 <=? z) && (z <? 2 ^ w)
  | None => false
  end.

(** [static_cast<double>(n)] for an integer [n]: the nearest double. *)
Definition of_Z (n : Z) : float :=
  SF2Prim (binary_normalize prec emax n 0 false).

End Double.

(** ** Constants of the translation unit *)

Definition MIN_RX_GAIN : float := 0.0.
Definition MAX_RX_GAIN : float := 30.0.
Definition RX_GAIN_STEP : float := 0.5.
Definition MIN_TX_GAIN : float := 0.0.
Definition MAX_TX_GAIN : float := 41.95.
Definition TX_GAIN_STEP : float := 0.05.

Definition RX_DEFAULT_FREQ : float := 2.5e9.
Definition TX_DEFAULT_FREQ : float := 2.5e9.
Definition RX_DEFAULT_GAIN : float := 0.
Definition TX_DEFAULT_GAIN : float := 0.

Definition AD9371_PRODUCT_ID : Z := 3.
Definition ARM_BINARY_SIZE : Z := 98304.
Definition PLL_LOCK_TIMEOUT_MS : Z := 200.
Definition INIT_CAL_TIMEOUT_MS : Z := 10000.

(** ** Unit conversions *)

(** [uint8_t _convert_rx_gain_to_mykonos(double gain)] *)
Definition _convert_rx_gain_to_mykonos (gain : float) : Z :=
  Double.to_unsigned 8 (gain * 2 + 195)%float.

(** [double _convert_rx_gain_from_mykonos(uint8_t gain)] *)
Definition _convert_rx_gain_from_mykonos (gain : Z) : float :=
  ((Double.of_Z gain - 195) / 2.0)%float.

(** [uint16_t _convert_tx_gain_to_mykonos(double gain)] *)
Definition _convert_tx_gain_to_mykonos (gain : float) : Z :=
  Double.to_unsigned 16 ((MAX_TX_GAIN - gain) * 1e3)%float.

(** [double _convert_tx_gain_from_mykonos(uint16_t gain)] *)
Definition _convert_tx_gain_from_mykonos (gain : Z) : float :=
  (MAX_TX_GAIN - Double.of_Z gain / 1e3)%float.

(** The gain range of the RX path, [MIN_RX_GAIN <= g <= MAX_RX_GAIN],
    with the comparisons of the language (false on NaN). *)
Definition in_rx_gain_range (g : float) : bool :=
  ((MIN_RX_GAIN <=? g) && (g <=? MAX_RX_GAIN))%float.

(** The gains of the RX path that lie on the half-dB grid: the doubles
    that compare equal to [k * 0.5] for an integer [k] in 0..60. *)
Definition rx_half_step (k : Z) : float := (Double.of_Z k * RX_GAIN_STEP)%float.

Definition on_rx_grid (g : float) : Prop :=
  exists k, 0 <= k <= 60 /\ (g =? rx_half_step k)%float = true.

(** Rounding to the nearest integer (halves away from zero) of the
    exact value of a double: what [round] means in the written
    specification of the encoders. *)
Definition round_nearest (x : float) : option Z :=
  match Prim2SF x with
  | S754_zero _ => Some 0
  | S754_finite s m e =>
      Some (cond_Zopp s
              (if 0 <=? e then Z.shiftl (Zpos m) e
               else Z.shiftr (Zpos m + 2 ^ (- e - 1)) (- e)))
  | S754_infinity _ | S754_nan => None
  end.

(** The RX encoder as the specification words it:
    [round(gainDb * 2) + 195]. *)
Definition spec_rx_gain_code (gainDb : float) : option Z :=
  match round_nearest (gainDb * 2)%float with
  | Some z => Some (z + 195)
  | None => None
  end.

(** The round trip through the RX encoder and decoder, compared with
    the equality of the language. *)
Definition rx_round_trip_ok (g : float) : bool :=
  (_convert_rx_gain_from_mykonos (_convert_rx_gain_to_mykonos g) =? g)%float.

(** ** Enumerations *)

(** [uhd::direction_t]; the source handles enumerators other than
    receive and transmit in its [default] and [else] branches. *)
Inductive direction_t := RX_DIRECTION | TX_DIRECTION | DX_DIRECTION.

Inductive chain_t := ONE | TWO.

Inductive radio_state_t := OFF | ON.

Inductive multichip_sync_t := PARTIAL | FULL.

Inductive mykonosRfPllName_t := RX_PLL | TX_PLL.

(** Result codes of the vendor API: one success sentinel per
    enumeration, every other value a failure. *)
Inductive mykonosErr_t := MYKONOS_ERR_OK | MYKONOS_ERR_FAILED (code : positive).

Inductive mykonosGpioErr_t := MYKONOS_ERR_GPIO_OK | MYKONOS_ERR_GPIO_FAILED (code : positive).

(** Enumerators that the translation unit takes from headers outside
    it (the PLL lock bits and the calibration bits): parameters of the
    embedding. *)
Record header_constants := {
  CLK_SYNTH : Z;
  RX_SYNTH : Z;
  TX_SYNTH : Z;
  SNIFF_SYNTH : Z;
  TX_BB_FILTER : Z;
  ADC_TUNER : Z;
  TIA_3DB_CORNER : Z;
  DC_OFFSET : Z;
  FLASH_CAL : Z
}.

Definition INIT_CALS (k : header_constants) : Z :=
  Z.lor (TX_BB_FILTER k)
    (Z.lor (ADC_TUNER k)
       (Z.lor (TIA_3DB_CORNER k) (Z.lor (DC_OFFSET k) (Z.lor (FLASH_CAL k) 0)))).

Definition TRACKING_CALS : Z := 0.

(** ** The world outside the wrapper *)

(** Calls into the vendor API that return [mykonosErr_t], with the
    arguments the wrapper passes (the device handle left out). *)
Inductive api_call :=
| MYKONOS_initialize
| MYKONOS_getProductId
| MYKONOS_getRadioState
| MYKONOS_radioOn
| MYKONOS_radioOff
| MYKONOS_initArm
| MYKONOS_loadArmFromBinary (binary : list Z) (count : Z)
| MYKONOS_enableMultichipSync (enableMcs : Z)
| MYKONOS_setRfPllFrequency (pll : mykonosRfPllName_t) (rfPllLoFrequency_Hz : Z)
| MYKONOS_getRfPllFrequency (pll : mykonosRfPllName_t)
| MYKONOS_checkPllsLockStatus
| MYKONOS_setTx1Attenuation (tx1Attenuation_mdB : Z)
| MYKONOS_setTx2Attenuation (tx2Attenuation_mdB : Z)
| MYKONOS_setRx1ManualGain (gainIndex : Z)
| MYKONOS_setRx2ManualGain (gainIndex : Z)
| MYKONOS_getTx1Attenuation
| MYKONOS_getTx2Attenuation
| MYKONOS_getRx1Gain
| MYKONOS_getRx2Gain
| MYKONOS_runInitCals (calMask : Z)
| MYKONOS_waitInitCals (timeoutMs : Z)
| MYKONOS_enableTrackingCals (enableMask : Z).

(** Calls into the vendor API that return [mykonosGpioErr_t]. *)
Inductive gpio_call :=
| MYKONOS_setRx1GainCtrlPin (incStep decStep rx1GainIncPin rx1GainDecPin : Z) (enable : bool)
| MYKONOS_setRx2GainCtrlPin (incStep decStep rx2GainIncPin rx2GainDecPin : Z) (enable : bool)
| MYKONOS_setTx1AttenCtrlPin (stepSize tx1AttenIncPin tx1AttenDecPin : Z) (enable : bool)
    (useTx1ForTx2 : Z)
| MYKONOS_setTx2AttenCtrlPin (stepSize tx2AttenIncPin tx2AttenDecPin : Z) (enable : bool)
| MYKONOS_setupGpio.

(** What the wrapper does to the outside, in order: vendor calls and
    readings of [std::chrono::steady_clock]. *)
Inductive event :=
| Api (c : api_call)
| Gpio (c : gpio_call)
| SteadyClockNow (t : Z).

(** The file behind [std::ifstream]: its bytes, and whether reading it
    hits an unrecoverable stream error. *)
Record firmware_file := { contents : list Z; io_error : bool }.

(** The board and its environment.  A vendor call answers with a result
    code and the values it writes through its output pointers; the
    answer may depend on everything done so far.  The clock is read in
    nanoseconds.  [firmware] is the file at the fixed path, [None] when
    it cannot be opened. *)
Record board := {
  mykonos : list event -> api_call -> mykonosErr_t * (Z * Z);
  mykonos_gpio : list event -> gpio_call -> mykonosGpioErr_t;
  steady_clock : list event -> Z;
  firmware : option firmware_file
}.

(** ** Gain-pin configuration store *)

Record ad937x_gain_ctrl_channel_t := {
  enable : bool;
  inc_pin : Z;
  dec_pin : Z;
  inc_step : Z;
  dec_step : Z
}.

(** Modelled from the spec: the class of [gain_ctrl] is declared in a
    header outside this translation unit.  Its [config] maps each
    direction in {RX, TX} and each chain in {ONE, TWO} to a channel
    record, all four created at construction; [at] on another key
    throws [std::out_of_range]. *)
Record ad937x_gain_ctrl_config_t := {
  rx1 : ad937x_gain_ctrl_channel_t;
  rx2 : ad937x_gain_ctrl_channel_t;
  tx1 : ad937x_gain_ctrl_channel_t;
  tx2 : ad937x_gain_ctrl_channel_t
}.

Definition config_at (c : ad937x_gain_ctrl_config_t) (direction : direction_t)
    (chain : chain_t) : option ad937x_gain_ctrl_channel_t :=
  match direction, chain with
  | RX_DIRECTION, ONE => Some (rx1 c)
  | RX_DIRECTION, TWO => Some (rx2 c)
  | TX_DIRECTION, ONE => Some (tx1 c)
  | TX_DIRECTION, TWO => Some (tx2 c)
  | DX_DIRECTION, _ => None
  end.

Definition config_put (c : ad937x_gain_ctrl_config_t) (direction : direction_t)
    (chain : chain_t) (ch : ad937x_gain_ctrl_channel_t) : ad937x_gain_ctrl_config_t :=
  match direction, chain with
  | RX_DIRECTION, ONE => {| rx1 := ch; rx2 := rx2 c; tx1 := tx1 c; tx2 := tx2 c |}
  | RX_DIRECTION, TWO => {| rx1 := rx1 c; rx2 := ch; tx1 := tx1 c; tx2 := tx2 c |}
  | TX_DIRECTION, ONE => {| rx1 := rx1 c; rx2 := rx2 c; tx1 := ch; tx2 := tx2 c |}
  | TX_DIRECTION, TWO => {| rx1 := rx1 c; rx2 := rx2 c; tx1 := tx1 c; tx2 := ch |}
  | DX_DIRECTION, _ => c
  end.

Definition with_inc_step (v : Z) (ch : ad937x_gain_ctrl_channel_t) :=
  {| enable := enable ch; inc_pin := inc_pin ch; dec_pin := dec_pin ch;
     inc_step := v; dec_step := dec_step ch |}.

Definition with_dec_step (v : Z) (ch : ad937x_gain_ctrl_channel_t) :=
  {| enable := enable ch; inc_pin := inc_pin ch; dec_pin := dec_pin ch;
     inc_step := inc_step ch; dec_step := v |}.

Definition with_enable (v : bool) (ch : ad937x_gain_ctrl_channel_t) :=
  {| enable := v; inc_pin := inc_pin ch; dec_pin := dec_pin ch;
     inc_step := inc_step ch; dec_step := dec_step ch |}.

(** ** The device object *)

(** The fields of [ad937x_device] that the modelled operations touch,
    and the history of what the object did to the outside. *)
Record ad937x_device := {
  gain_ctrl : ad937x_gain_ctrl_config_t;
  rxPllLoFrequency_Hz : Z;
  txPllLoFrequency_Hz : Z;
  trace : list event
}.

Definition log (e : event) (d : ad937x_device) : ad937x_device :=
  {| gain_ctrl := gain_ctrl d;
     rxPllLoFrequency_Hz := rxPllLoFrequency_Hz d;
     txPllLoFrequency_Hz := txPllLoFrequency_Hz d;
     trace := trace d ++ [e] |}.

Definition with_gain_ctrl (c : ad937x_gain_ctrl_config_t) (d : ad937x_device) :=
  {| gain_ctrl := c;
     rxPllLoFrequency_Hz := rxPllLoFrequency_Hz d;
     txPllLoFrequency_Hz := txPllLoFrequency_Hz d;
     trace := trace d |}.

Definition with_lo_frequency (pll : mykonosRfPllName_t) (hz : Z) (d : ad937x_device) :=
  {| gain_ctrl := gain_ctrl d;
     rxPllLoFrequency_Hz := match pll with RX_PLL => hz | TX_PLL => rxPllLoFrequency_Hz d end;
     txPllLoFrequency_Hz := match pll with TX_PLL => hz | RX_PLL => txPllLoFrequency_Hz d end;
     trace := trace d |}.

(** ** Exceptions and the monad of member functions *)

Inductive what :=
| mykonos_message (error : mykonosErr_t)
| gpio_message (error : mykonosGpioErr_t)
| could_not_open_arm_binary
| error_reading_arm_binary
| product_id_mismatch (read : Z)
| multichip_sync_failed (read expected : Z)
| clk_synth_failed_to_lock
| plls_did_not_lock_after_tuning
| pll_did_not_lock
| init_cals_failed.

(** [mpm::runtime_error], the assertion failure of [MPM_ASSERT_THROW],
    the failure of [MPM_THROW_INVALID_CODE_PATH], and
    [std::out_of_range] of [at]. *)
Inductive exn :=
| runtime_error (w : what)
| assertion_error
| invalid_code_path
| out_of_range.

(** A member function either returns, throws, or (the busy loop only)
    is cut off by the fuel of the embedding. *)
Inductive outcome (A : Type) :=
| Return (a : A)
| Throw (e : exn)
| OutOfFuel.

Arguments Return {A} a.
Arguments Throw {A} e.
Arguments OutOfFuel {A}.

Definition M (A : Type) : Type := ad937x_device -> outcome A * ad937x_device.

Definition ret {A} (a : A) : M A := fun d => (Return a, d).

Definition throw {A} (e : exn) : M A := fun d => (Throw e, d).

Definition bind {A B} (m : M A) (f : A -> M B) : M B :=
  fun d =>
    match m d with
    | (Return a, d') => f a d'
    | (Throw e, d') => (Throw e, d')
    | (OutOfFuel, d') => (OutOfFuel, d')
    end.

Declare Scope dev_scope.
Delimit Scope dev_scope with dev.
Notation "x <- m ;; f" := (bind m (fun x => f))
  (at level 61, m at next level, right associativity) : dev_scope.
Notation "m ;; f" := (bind m (fun _ => f))
  (at level 61, right associativity) : dev_scope.
Local Open Scope dev_scope.

Definition uint8 (z : Z) : Z := z mod 2 ^ 8.
Definition uint16 (z : Z) : Z := z mod 2 ^ 16.
Definition uint32 (z : Z) : Z := z mod 2 ^ 32.
Definition uint64 (z : Z) : Z := z mod 2 ^ 64.

(** ** Member functions *)

Section Device.

Variable hw : board.
Variable k : header_constants.

(** One vendor call: the board answers from the history, and the call
    joins the history. *)
Definition vendor (c : api_call) : M (mykonosErr_t * (Z * Z)) :=
  fun d => (Return (mykonos hw (trace d) c), log (Api c) d).

Definition vendor_gpio (c : gpio_call) : M mykonosGpioErr_t :=
  fun d => (Return (mykonos_gpio hw (trace d) c), log (Gpio c) d).

(** [std::chrono::steady_clock::now()] *)
Definition now : M Z :=
  fun d => let t := steady_clock hw (trace d) in (Return t, log (SteadyClockNow t) d).

(** [_call_api_function]: the bound vendor call is run; its output
    values are handed back on success. *)
Definition _call_api_function (func : api_call) : M (Z * Z) :=
  r <- vendor func ;;
  match fst r with
  | MYKONOS_ERR_OK => ret (snd r)
  | error => throw (runtime_error (mykonos_message error))
  end.

Definition _call_gpio_api_function (func : gpio_call) : M unit :=
  error <- vendor_gpio func ;;
  match error with
  | MYKONOS_ERR_GPIO_OK => ret tt
  | _ => throw (runtime_error (gpio_message error))
  end.

Definition start_radio : M unit :=
  _call_api_function MYKONOS_radioOn ;; ret tt.

Definition stop_radio : M unit :=
  _call_api_function MYKONOS_radioOff ;; ret tt.

Definition _move_to_config_state : M radio_state_t :=
  out <- _call_api_function MYKONOS_getRadioState ;;
  let status := uint32 (fst out) in
  if Z.land status 3 =? 3 then
    stop_radio ;; ret ON
  else
    ret OFF.

Definition _restore_from_config_state (state : radio_state_t) : M unit :=
  match state with
  | ON => start_radio
  | OFF => ret tt
  end.

(** [std::istream::read] of [n] bytes into a buffer: the bytes that
    are there are stored at the front of the buffer; a short file sets
    [eofbit] and [failbit], a stream error sets [badbit]. *)
Record ios_state := { badbit : bool; failbit : bool; eofbit : bool }.

Definition ifstream_read (f : firmware_file) (n : Z) (buffer : list Z) : list Z * ios_state :=
  if io_error f then
    (buffer, {| badbit := true; failbit := true; eofbit := false |})
  else
    let got := firstn (Z.to_nat n) (contents f) in
    let short := (Z.of_nat (length got) <? n) in
    (got ++ skipn (length got) buffer,
     {| badbit := false; failbit := short; eofbit := short |}).

Definition _get_arm_binary : M (list Z) :=
  match firmware hw with
  | None => throw (runtime_error could_not_open_arm_binary)
  | Some file =>
      let binary := repeat 0 (Z.to_nat ARM_BINARY_SIZE) in
      let '(binary, state) := ifstream_read file ARM_BINARY_SIZE binary in
      if badbit state then throw (runtime_error error_reading_arm_binary)
      else ret binary
  end.

Definition get_product_id : M Z :=
  out <- _call_api_function MYKONOS_getProductId ;; ret (uint8 (fst out)).

Definition _verify_product_id : M unit :=
  product_id <- get_product_id ;;
  if negb (product_id =? AD9371_PRODUCT_ID) then
    throw (runtime_error (product_id_mismatch product_id))
  else ret tt.

Definition get_multichip_sync_status : M Z :=
  out <- _call_api_function (MYKONOS_enableMultichipSync 0) ;; ret (uint8 (fst out)).

Definition _verify_multichip_sync_status (mcs : multichip_sync_t) : M unit :=
  let status_expected := match mcs with FULL => 0x0B | PARTIAL => 0x0A end in
  let status_mask := status_expected in
  mcs_status <- get_multichip_sync_status ;;
  if negb (Z.land mcs_status status_mask =? status_expected) then
    throw (runtime_error (multichip_sync_failed mcs_status status_expected))
  else ret tt.

(** [gain_ctrl.config.at(direction).at(chain)], read and written. *)
Definition config_read (direction : direction_t) (chain : chain_t)
    : M ad937x_gain_ctrl_channel_t :=
  fun d =>
    match config_at (gain_ctrl d) direction chain with
    | Some chan => (Return chan, d)
    | None => (Throw out_of_range, d)
    end.

Definition config_modify (direction : direction_t) (chain : chain_t)
    (f : ad937x_gain_ctrl_channel_t -> ad937x_gain_ctrl_channel_t) : M unit :=
  fun d =>
    match config_at (gain_ctrl d) direction chain with
    | Some chan => (Return tt, with_gain_ctrl (config_put (gain_ctrl d) direction chain (f chan)) d)
    | None => (Throw out_of_range, d)
    end.

Definition _apply_gain_pins (direction : direction_t) (chain : chain_t) : M unit :=
  chan <- config_read direction chain ;;
  (match direction with
   | TX_DIRECTION =>
       if inc_step chan =? dec_step chan then ret tt else throw assertion_error
   | _ => ret tt
   end) ;;
  state <- _move_to_config_state ;;
  (match direction with
   | RX_DIRECTION =>
       let func :=
         match chain with
         | ONE => MYKONOS_setRx1GainCtrlPin
         | TWO => MYKONOS_setRx2GainCtrlPin
         end in
       _call_gpio_api_function
         (func (inc_step chan) (dec_step chan) (inc_pin chan) (dec_pin chan) (enable chan))
   | TX_DIRECTION =>
       let func :=
         match chain with
         | ONE => fun a b c e => MYKONOS_setTx1AttenCtrlPin a b c e 0
         | TWO => MYKONOS_setTx2AttenCtrlPin
         end in
       _call_gpio_api_function
         (func (inc_step chan) (inc_pin chan) (dec_pin chan) (enable chan))
   | DX_DIRECTION => ret tt
   end) ;;
  _restore_from_config_state state.

(** A single-shot lock check: [get_pll_lock_status(pll)], the call
    with [wait_for_lock] left at its default. *)
Definition pll_locked_now (pll : Z) : M bool :=
  out <- _call_api_function MYKONOS_checkPllsLockStatus ;;
  let pll_status := uint8 (fst out) in
  ret (Z.land pll_status pll =? pll).

Definition milliseconds (n : Z) : Z := n * 1000000.

(** The [while] loop of the lock wait.  Each round of the loop uses one
    unit of fuel. *)
Fixpoint lock_wait_loop (fuel : nat) (pll lock_time : Z) (locked : bool) : M bool :=
  if locked then ret locked
  else
    t <- now ;;
    if lock_time >? t then
      match fuel with
      | O => fun d => (OutOfFuel, d)
      | S fuel' =>
          locked' <- pll_locked_now pll ;;
          lock_wait_loop fuel' pll lock_time locked'
      end
    else ret locked.

Definition get_pll_lock_status (fuel : nat) (pll : Z) (wait_for_lock : bool) : M bool :=
  out <- _call_api_function MYKONOS_checkPllsLockStatus ;;
  let pll_status := uint8 (fst out) in
  if negb wait_for_lock then
    ret (Z.land pll_status pll =? pll)
  else
    t0 <- now ;;
    let lock_time := t0 + milliseconds PLL_LOCK_TIMEOUT_MS in
    locked <- lock_wait_loop fuel pll lock_time false ;;
    if negb locked then
      pll_locked_now pll
    else ret locked.

Definition get_freq (direction : direction_t) : M float :=
  match direction with
  | TX_DIRECTION =>
      out <- _call_api_function (MYKONOS_getRfPllFrequency TX_PLL) ;;
      ret (Double.of_Z (uint64 (fst out)))
  | RX_DIRECTION =>
      out <- _call_api_function (MYKONOS_getRfPllFrequency RX_PLL) ;;
      ret (Double.of_Z (uint64 (fst out)))
  | DX_DIRECTION => throw invalid_code_path
  end.

Definition tune (fuel : nat) (direction : direction_t) (value : float)
    (wait_for_lock : bool) : M float :=
  let integer_value := Double.to_unsigned 64 value in
  match
    match direction with
    | TX_DIRECTION => Some (TX_PLL, uint8 (TX_SYNTH k))
    | RX_DIRECTION => Some (RX_PLL, uint8 (RX_SYNTH k))
    | DX_DIRECTION => None
    end
  with
  | None => throw invalid_code_path
  | Some (pll, locked_pll) =>
      state <- _move_to_config_state ;;
      (fun d => (Return tt, with_lo_frequency pll integer_value d)) ;;
      _call_api_function (MYKONOS_setRfPllFrequency pll integer_value) ;;
      (if wait_for_lock then
         locked <- get_pll_lock_status fuel locked_pll true ;;
         if negb locked then throw (runtime_error pll_did_not_lock) else ret tt
       else ret tt) ;;
      _restore_from_config_state state ;;
      get_freq direction
  end.

Definition set_gain (direction : direction_t) (chain : chain_t) (value : float) : M float :=
  state <- _move_to_config_state ;;
  coerced_value <-
    (match direction with
     | TX_DIRECTION =>
         let attenuation := _convert_tx_gain_to_mykonos value in
         let coerced_value := Double.of_Z attenuation in
         let func :=
           match chain with
           | ONE => MYKONOS_setTx1Attenuation
           | TWO => MYKONOS_setTx2Attenuation
           end in
         _call_api_function (func attenuation) ;;
         ret coerced_value
     | RX_DIRECTION =>
         let gain := _convert_rx_gain_to_mykonos value in
         let coerced_value := Double.of_Z gain in
         let func :=
           match chain with
           | ONE => MYKONOS_setRx1ManualGain
           | TWO => MYKONOS_setRx2ManualGain
           end in
         _call_api_function (func gain) ;;
         ret coerced_value
     | DX_DIRECTION => throw invalid_code_path
     end) ;;
  _restore_from_config_state state ;;
  ret coerced_value.

Definition get_gain (direction : direction_t) (chain : chain_t) : M float :=
  match direction with
  | TX_DIRECTION =>
      let func :=
        match chain with
        | ONE => MYKONOS_getTx1Attenuation
        | TWO => MYKONOS_getTx2Attenuation
        end in
      out <- _call_api_function func ;;
      ret (_convert_tx_gain_from_mykonos (uint16 (fst out)))
  | RX_DIRECTION =>
      let func :=
        match chain with
        | ONE => MYKONOS_getRx1Gain
        | TWO => MYKONOS_getRx2Gain
        end in
      out <- _call_api_function func ;;
      ret (_convert_rx_gain_from_mykonos (uint8 (fst out)))
  | DX_DIRECTION => throw invalid_code_path
  end.

Definition set_gain_pin_step_sizes (direction : direction_t) (chain : chain_t)
    (inc_step dec_step : float) : M unit :=
  (match direction with
   | RX_DIRECTION =>
       config_modify direction chain
         (with_inc_step (Double.to_unsigned 8 (inc_step / 0.5)%float)) ;;
       config_modify direction chain
         (with_dec_step (Double.to_unsigned 8 (dec_step / 0.5)%float))
   | TX_DIRECTION =>
       config_modify direction chain
         (with_dec_step (Double.to_unsigned 8 (inc_step / 0.05)%float)) ;;
       config_modify direction chain
         (with_inc_step (Double.to_unsigned 8 (dec_step / 0.05)%float))
   | DX_DIRECTION => throw invalid_code_path
   end) ;;
  _apply_gain_pins direction chain.

Definition set_enable_gain_pins (direction : direction_t) (chain : chain_t)
    (enable : bool) : M unit :=
  config_modify direction chain (with_enable enable) ;;
  _apply_gain_pins direction chain.

Definition _initialize_rf (fuel : nat) : M unit :=
  tune fuel RX_DIRECTION RX_DEFAULT_FREQ false ;;
  tune fuel TX_DIRECTION TX_DEFAULT_FREQ false ;;
  locked <- get_pll_lock_status fuel
              (uint8 (Z.lor (Z.lor (Z.lor (CLK_SYNTH k) (RX_SYNTH k)) (TX_SYNTH k))
                        (SNIFF_SYNTH k))) true ;;
  (if negb locked then throw (runtime_error plls_did_not_lock_after_tuning) else ret tt) ;;
  _apply_gain_pins RX_DIRECTION ONE ;;
  _apply_gain_pins RX_DIRECTION TWO ;;
  _apply_gain_pins TX_DIRECTION ONE ;;
  _apply_gain_pins TX_DIRECTION TWO ;;
  _call_gpio_api_function MYKONOS_setupGpio ;;
  set_gain RX_DIRECTION ONE RX_DEFAULT_GAIN ;;
  set_gain RX_DIRECTION TWO RX_DEFAULT_GAIN ;;
  set_gain TX_DIRECTION ONE TX_DEFAULT_GAIN ;;
  set_gain TX_DIRECTION TWO TX_DEFAULT_GAIN ;;
  _call_api_function (MYKONOS_runInitCals (uint32 (INIT_CALS k))) ;;
  out <- _call_api_function (MYKONOS_waitInitCals INIT_CAL_TIMEOUT_MS) ;;
  let errorFlag := uint8 (fst out) in
  let errorCode := uint8 (snd out) in
  (if negb (errorFlag =? 0) || negb (errorCode =? 0) then
     throw (runtime_error init_cals_failed)
   else ret tt) ;;
  _call_api_function (MYKONOS_enableTrackingCals TRACKING_CALS) ;;
  ret tt.

Definition begin_initialization (fuel : nat) : M unit :=
  _call_api_function MYKONOS_initialize ;;
  _verify_product_id ;;
  locked <- get_pll_lock_status fuel (uint8 (CLK_SYNTH k)) false ;;
  (if negb locked then throw (runtime_error clk_synth_failed_to_lock) else ret tt) ;;
  _call_api_function (MYKONOS_enableMultichipSync 1) ;;
  ret tt.

Definition finish_initialization (fuel : nat) : M unit :=
  _verify_multichip_sync_status PARTIAL ;;
  _call_api_function MYKONOS_initArm ;;
  binary <- _get_arm_binary ;;
  _call_api_function (MYKONOS_loadArmFromBinary binary (Z.of_nat (length binary))) ;;
  _initialize_rf fuel.

End Device.

(** ** A bench *)

(** A board on which every vendor call succeeds.  It reports the given
    radio status and PLL lock status, a completed partial multichip
    sync, the default LO frequency and no calibration error.  Its clock
    advances by 50 ms with every vendor call or clock reading. *)
Definition bench_board (radio_status pll_status : Z) (fw : option firmware_file) : board :=
  {| mykonos := fun _ c =>
       match c with
       | MYKONOS_getRadioState => (MYKONOS_ERR_OK, (radio_status, 0))
       | MYKONOS_checkPllsLockStatus => (MYKONOS_ERR_OK, (pll_status, 0))
       | MYKONOS_enableMultichipSync _ => (MYKONOS_ERR_OK, (0x0A, 0))
       | MYKONOS_getRfPllFrequency _ => (MYKONOS_ERR_OK, (2500000000, 0))
       | MYKONOS_getProductId => (MYKONOS_ERR_OK, (AD9371_PRODUCT_ID, 0))
       | _ => (MYKONOS_ERR_OK, (0, 0))
       end;
     mykonos_gpio := fun _ _ => MYKONOS_ERR_GPIO_OK;
     steady_clock := fun h => milliseconds 50 * Z.of_nat (length h);
     firmware := fw |}.

Definition bench_channel (inc dec : Z) : ad937x_gain_ctrl_channel_t :=
  {| enable := false; inc_pin := inc; dec_pin := dec; inc_step := 1; dec_step := 1 |}.

(** A device object before any call, with every channel at step 1. *)
Definition bench_device : ad937x_device :=
  {| gain_ctrl := {| rx1 := bench_channel 0 1; rx2 := bench_channel 2 3;
                     tx1 := bench_channel 4 5; tx2 := bench_channel 6 7 |};
     rxPllLoFrequency_Hz := 0;
     txPllLoFrequency_Hz := 0;
     trace := [] |}.

(** A firmware file of three bytes, readable without error. *)
Definition short_firmware : firmware_file := {| contents := [1; 2; 3]; io_error := false |}.

(** The enumerator values of the vendor headers, used on the bench. *)
Definition bench_constants : header_constants :=
  {| CLK_SYNTH := 0x01; RX_SYNTH := 0x02; TX_SYNTH := 0x04; SNIFF_SYNTH := 0x08;
     TX_BB_FILTER := 0x01; ADC_TUNER := 0x02; TIA_3DB_CORNER := 0x04;
     DC_OFFSET := 0x08; FLASH_CAL := 0x40 |}.

(** ** Vocabulary of the statements *)

(** A member function that leaves the gain-pin store as it found it. *)
Definition keeps_store {A} (m : M A) : Prop :=
  forall d, gain_ctrl (snd (m d)) = gain_ctrl d.

(** A board like the bench board, except that the vendor calls picked
    out by [bad] fail with code 1. *)
Definition faulty_board (bad : api_call -> bool) (radio_status pll_status : Z)
    (fw : option firmware_file) : board :=
  {| mykonos := fun h c =>
       if bad c then (MYKONOS_ERR_FAILED 1, (0, 0))
       else mykonos (bench_board radio_status pll_status fw) h c;
     mykonos_gpio := fun _ _ => MYKONOS_ERR_GPIO_OK;
     steady_clock := fun h => milliseconds 50 * Z.of_nat (length h);
     firmware := fw |}.

Definition is_rx1_gain_setter (c : api_call) : bool :=
  match c with MYKONOS_setRx1ManualGain _ => true | _ => false end.

Definition is_pll_setter (c : api_call) : bool :=
  match c with MYKONOS_setRfPllFrequency _ _ => true | _ => false end.

(** A board like the bench board that reports the given gain-table
    index for both RX chains. *)
Definition readback_board (index : Z) : board :=
  {| mykonos := fun h c =>
       match c with
       | MYKONOS_getRx1Gain | MYKONOS_getRx2Gain => (MYKONOS_ERR_OK, (index, 0))
       | _ => mykonos (bench_board 0 0 None) h c
       end;
     mykonos_gpio := fun _ _ => MYKONOS_ERR_GPIO_OK;
     steady_clock := fun h => milliseconds 50 * Z.of_nat (length h);
     firmware := None |}.

(** A board whose calls of the general API all succeed, and one whose
    GPIO calls all succeed. *)
Definition api_succeeds (hw : board) : Prop :=
  forall h c, fst (mykonos hw h c) = MYKONOS_ERR_OK.

Definition gpio_succeeds (hw : board) : Prop :=
  forall h c, mykonos_gpio hw h c = MYKONOS_ERR_GPIO_OK.

(** The radio is on, for the wrapper, when both of the two lowest bits
    of the status word are set. *)
Definition radio_on (status : Z) : bool := Z.testbit status 0 && Z.testbit status 1.

(** The device after a run of events. *)
Definition logs (evs : list event) (d : ad937x_device) : ad937x_device :=
  fold_left (fun d e => log e d) evs d.

(** The events of a configuration step done in the config state, all
    calls succeeding: the status query, then the step, between radio-off
    and radio-on when the radio was on. *)
Definition bracketed (status : Z) (body : list event) : list event :=
  Api MYKONOS_getRadioState ::
    (if radio_on status then Api MYKONOS_radioOff :: body ++ [Api MYKONOS_radioOn]
     else body).

(** A member function that leaves a field of the device object as it
    found it, whether it returns or throws. *)
Definition keeps_field {A B} (field : ad937x_device -> B) (m : M A) : Prop :=
  forall d, field (snd (m d)) = field d.

(** The attenuation codes the chip accepts, 0..41950 mdB in steps of
    50 mdB. *)
Definition tx_codes : list Z := map (fun n => 50 * Z.of_nat n) (seq 0 840).

(** Decoding a TX code and encoding the result. *)
Definition tx_code_again (c : Z) : Z :=
  _convert_tx_gain_to_mykonos (_convert_tx_gain_from_mykonos c).

(** * Properties *)

(** ** Rounding of binary64 arithmetic

    Facts about the reference semantics of binary64 operations
    ([SpecFloat]) that the range of the RX encoder rests on. *)
Section Binary64.

Lemma digits2_size (m : positive) : digits2_pos m = Pos.size m.
Proof. induction m; simpl; congruence. Qed.

Lemma digits2_bounds (m : positive) :
  2 ^ (Zpos (digits2_pos m) - 1) <= Zpos m < 2 ^ Zpos (digits2_pos m).
Proof.
  rewrite digits2_size. split.
  - pose proof (Pos.size_le m) as H.
    assert (2 ^ Zpos (Pos.size m) <= 2 * Zpos m) as H'.
    { rewrite <- Pos2Z.inj_pow. change (2 * Zpos m) with (Zpos m~0). lia. }
    replace (Zpos (Pos.size m)) with (Z.succ (Zpos (Pos.size m) - 1)) in H' by lia.
    rewrite Z.pow_succ_r in H' by lia. lia.
  - pose proof (Pos.size_gt m) as H. rewrite <- Pos2Z.inj_pow. lia.
Qed.

Lemma digits2_unique (m : positive) (d : Z) :
  2 ^ (d - 1) <= Zpos m < 2 ^ d -> Zpos (digits2_pos m) = d.
Proof.
  intros [Hlo Hhi]. pose proof (digits2_bounds m) as [Blo Bhi].
  set (d' := Zpos (digits2_pos m)) in *.
  assert (0 < d') by (subst d'; lia).
  destruct (Z.lt_trichotomy d' d) as [Hlt | [Heq | Hgt]]; [ | exact Heq | ].
  - assert (2 ^ d' <= 2 ^ (d - 1)) by (apply Z.pow_le_mono_r; lia). lia.
  - destruct (Z.le_gt_cases 0 d) as [Hd | Hd].
    + assert (2 ^ d <= 2 ^ (d' - 1)) by (apply Z.pow_le_mono_r; lia). lia.
    + rewrite (Z.pow_neg_r 2 d) in Hhi by lia. lia.
Qed.

Lemma iter_pos_nat {A} (f : A -> A) (p : positive) (x : A) :
  iter_pos f p x = Nat.iter (Pos.to_nat p) f x.
Proof.
  revert x. induction p as [p IH | p IH | ]; intro x; cbn [iter_pos].
  - rewrite !IH, Pos2Nat.inj_xI.
    replace (S (2 * Pos.to_nat p)) with (Pos.to_nat p + (Pos.to_nat p + 1))%nat by lia.
    rewrite !Nat.iter_add. reflexivity.
  - rewrite !IH, Pos2Nat.inj_xO.
    replace (2 * Pos.to_nat p)%nat with (Pos.to_nat p + Pos.to_nat p)%nat by lia.
    rewrite Nat.iter_add. reflexivity.
  - reflexivity.
Qed.

Lemma shr_1_nonneg (m : Z) (r s : bool) :
  0 <= m ->
  shr_1 (Build_shr_record m r s) = Build_shr_record (m / 2) (Z.odd m) (r || s).
Proof.
  intros Hm. rewrite <- Z.div2_div.
  destruct m as [ | [p | p | ] | p ]; try lia; reflexivity.
Qed.

Lemma shr_iter_spec (M : Z) (k : nat) :
  0 <= M ->
  let mrs := Nat.iter k shr_1 (Build_shr_record M false false) in
  shr_m mrs = M / 2 ^ Z.of_nat k /\
  (shr_r mrs || shr_s mrs = false <-> M mod 2 ^ Z.of_nat k = 0).
Proof.
  intros HM. induction k as [ | k IH ].
  - simpl. rewrite Z.div_1_r, Z.mod_1_r. tauto.
  - cbv zeta in *. rewrite Nat.iter_succ.
    destruct (Nat.iter k shr_1 _) as [m r s]. simpl in IH. destruct IH as [Hm Hrs].
    assert (0 < 2 ^ Z.of_nat k) as Hp by (apply Z.pow_pos_nonneg; lia).
    assert (0 <= m) as Hm0 by (subst m; apply Z.div_pos; lia).
    rewrite shr_1_nonneg by exact Hm0. cbn [shr_m shr_r shr_s].
    rewrite Nat2Z.inj_succ, Z.pow_succ_r by lia.
    rewrite (Z.mul_comm 2). split.
    + rewrite <- Z.div_div by lia. congruence.
    + rewrite Z.rem_mul_r by lia. rewrite <- Hm.
      pose proof (Z.mod_pos_bound M (2 ^ Z.of_nat k) Hp) as Hb.
      pose proof (Z.mod_pos_bound m 2 ltac:(lia)) as Hb2.
      rewrite <- Z.negb_even, Zeven_mod.
      destruct (Z.eqb_spec (m mod 2) 0) as [E | E]; simpl.
      * rewrite E. rewrite Hrs. lia.
      * split; [ discriminate | nia ].
Qed.


Lemma shr_fexp_exact_loc (M : positive) (E n : Z) :
  0 <= n ->
  fexp prec emax (Zpos (digits2_pos M) + E) = E + n ->
  exists mrs,
    shr_fexp prec emax (Zpos M) E loc_Exact = (mrs, E + n) /\
    shr_m mrs = Zpos M / 2 ^ n /\
    (shr_r mrs || shr_s mrs = false <-> Zpos M mod 2 ^ n = 0).
Proof.
  intros Hn Hf. unfold shr_fexp. cbn [Zdigits2 shr_record_of_loc].
  rewrite Hf. replace (E + n - E) with n by lia.
  destruct n as [ | p | p ]; [ | | lia ].
  - exists (Build_shr_record (Zpos M) false false). cbn [shr shr_m shr_r shr_s].
    rewrite Z.add_0_r, Z.pow_0_r, Z.div_1_r, Z.mod_1_r. tauto.
  - cbn [shr]. rewrite iter_pos_nat.
    pose proof (shr_iter_spec (Zpos M) (Pos.to_nat p) ltac:(lia)) as H.
    cbv zeta in H. rewrite positive_nat_Z in H. eauto.
Qed.

Lemma round_nearest_even_range (mrs : shr_record) (M n lo hi : Z) :
  0 <= n ->
  shr_m mrs = M / 2 ^ n ->
  (shr_r mrs || shr_s mrs = false <-> M mod 2 ^ n = 0) ->
  lo * 2 ^ n <= M <= hi * 2 ^ n ->
  lo <= round_nearest_even (shr_m mrs) (loc_of_shr_record mrs) <= hi.
Proof.
  intros Hn Hm Hrs [Hlo Hhi].
  assert (0 < 2 ^ n) as Hp by (apply Z.pow_pos_nonneg; lia).
  pose proof (Z.div_mod M (2 ^ n) ltac:(lia)) as Hdm.
  pose proof (Z.mod_pos_bound M (2 ^ n) Hp) as Hb.
  assert (lo <= M / 2 ^ n) as Hlo' by (apply Z.div_le_lower_bound; lia).
  assert (M / 2 ^ n <= hi) as Hhi' by (apply Z.div_le_upper_bound; lia).
  assert (M mod 2 ^ n <> 0 -> M / 2 ^ n + 1 <= hi) as Hup by (intros Hne; nia).
  destruct mrs as [m r s]. cbn [shr_m shr_r shr_s] in *. subst m.
  destruct r, s; cbn [loc_of_shr_record round_nearest_even orb] in *.
  - assert (M mod 2 ^ n <> 0) by (intros E; apply Hrs in E; discriminate). lia.
  - assert (M mod 2 ^ n <> 0) by (intros E; apply Hrs in E; discriminate).
    destruct (Z.even _); lia.
  - assert (M mod 2 ^ n <> 0) by (intros E; apply Hrs in E; discriminate). lia.
  - lia.
Qed.

Lemma binary_round_aux_range (sx : bool) (M lo hi : positive) (E n : Z) :
  0 <= n ->
  bounded prec emax lo (E + n) = true ->
  digits2_pos hi = digits2_pos lo ->
  Zpos lo * 2 ^ n <= Zpos M <= Zpos hi * 2 ^ n ->
  exists r,
    binary_round_aux prec emax sx (Zpos M) E loc_Exact = S754_finite sx r (E + n) /\
    Zpos lo <= Zpos r <= Zpos hi.
Proof.
  intros Hn Hb Hd [Hlo Hhi].
  unfold bounded, canonical_mantissa in Hb.
  apply andb_true_iff in Hb. destruct Hb as [Hcan Hmax].
  apply Z.eqb_eq in Hcan.
  pose proof (digits2_bounds lo) as [Llo Lhi].
  pose proof (digits2_bounds hi) as [Ulo Uhi]. rewrite Hd in Ulo, Uhi.
  set (d := Zpos (digits2_pos lo)) in *.
  assert (0 < 2 ^ n) as Hp by (apply Z.pow_pos_nonneg; lia).
  assert (Zpos (digits2_pos M) = d + n) as HdM.
  { apply digits2_unique.
    replace (d + n - 1) with (d - 1 + n) by lia.
    rewrite !Z.pow_add_r by (subst d; lia). nia. }
  destruct (shr_fexp_exact_loc M E n Hn) as (mrs & Hshr & Hm & Hrs).
  { rewrite HdM. rewrite <- Hcan. f_equal. lia. }
  pose proof (round_nearest_even_range mrs (Zpos M) n (Zpos lo) (Zpos hi) Hn Hm Hrs
                (conj Hlo Hhi)) as [Rlo Rhi].
  unfold binary_round_aux. rewrite Hshr.
  destruct (round_nearest_even (shr_m mrs) (loc_of_shr_record mrs)) as [ | r | r ] eqn:ER;
    [ lia | | lia ].
  assert (Zpos (digits2_pos r) = d) as Hdr by (apply digits2_unique; lia).
  destruct (shr_fexp_exact_loc r (E + n) 0 ltac:(lia)) as (mrs2 & Hshr2 & Hm2 & _).
  { rewrite Hdr, Z.add_0_r. exact Hcan. }
  rewrite Z.add_0_r in Hshr2. rewrite Hshr2, Hm2, Z.pow_0_r, Z.div_1_r, Hmax.
  exists r. split; [ reflexivity | lia ].
Qed.


Lemma iter_xO_pow (c d : positive) :
  Zpos (Pos.iter xO c d) = Zpos c * 2 ^ Zpos d.
Proof.
  induction d as [ | d IH ] using Pos.peano_ind.
  - cbn [Pos.iter]. rewrite Pos2Z.inj_xO. change (2 ^ 1) with 2. ring.
  - rewrite Pos.iter_succ, Pos2Z.inj_xO, IH, Pos2Z.inj_succ, Z.pow_succ_r by lia. ring.
Qed.

(** Doubling a finite positive double is exact. *)
Lemma SFmul_two (m : positive) (e : Z) :
  bounded prec emax m e = true ->
  e + 1 <= emax - prec ->
  exists m2 e2,
    SFmul prec emax (S754_finite false m e) (S754_finite false 4503599627370496 (-51))
      = S754_finite false m2 e2 /\
    e <= e2 <= e + 1 /\
    Zpos m2 * 2 ^ (e2 - e) = 2 * Zpos m /\
    Zpos m2 < 2 ^ 53.
Proof.
  intros Hb He. pose proof Hb as Hb'.
  unfold bounded, canonical_mantissa in Hb'.
  apply andb_true_iff in Hb'. destruct Hb' as [Hcan _]. apply Z.eqb_eq in Hcan.
  unfold fexp, SpecFloat.emin in Hcan. change prec with 53 in *. change emax with 1024 in *.
  pose proof (digits2_bounds m) as [Dlo Dhi].
  set (d := Zpos (digits2_pos m)) in *.
  cbn [SFmul xorb].
  destruct (Z.le_gt_cases (-1074) (d + e - 53)) as [Hn | Hs].
  - assert (d = 53) as Hd by lia.
    destruct (binary_round_aux_range false (m * 4503599627370496) m m (e + -51) 52)
      as (r & Hr & Hrr); try lia.
    + replace (e + -51 + 52) with (e + 1) by lia.
      unfold bounded, canonical_mantissa, fexp, SpecFloat.emin.
      change prec with 53. change emax with 1024. fold d. rewrite Hd.
      apply andb_true_iff. split; [ apply Z.eqb_eq | apply Z.leb_le ]; lia.
    + assert (r = m) by lia. subst r.
      exists m, (e + 1). replace (e + -51 + 52) with (e + 1) in Hr by lia.
      rewrite Hd in Dhi.
      split; [ exact Hr | ]. split; [ lia | ]. split; [ | lia ].
      replace (e + 1 - e) with 1 by lia. lia.
  - assert (e = -1074) as Ee by lia. assert (d <= 52) as Hd by lia.
    assert (0 < d) as Hd0 by (subst d; lia).
    destruct (binary_round_aux_range false (m * 4503599627370496) m~0 m~0 (e + -51) 51)
      as (r & Hr & Hrr); try lia.
    + replace (e + -51 + 51) with e by lia.
      unfold bounded, canonical_mantissa, fexp, SpecFloat.emin.
      change prec with 53. change emax with 1024.
      cbn [digits2_pos]. rewrite Pos2Z.inj_succ. fold d.
      apply andb_true_iff. split; [ apply Z.eqb_eq | apply Z.leb_le ]; lia.
    + assert (r = m~0)%positive by lia. subst r.
      exists m~0%positive, e. replace (e + -51 + 51) with e in Hr by lia.
      assert (2 ^ d <= 2 ^ 52) by (apply Z.pow_le_mono_r; lia).
      split; [ exact Hr | ]. split; [ lia | ]. split.
      * rewrite Z.sub_diag, Z.pow_0_r. lia.
      * rewrite Pos2Z.inj_xO. change (2 ^ 53) with (2 * 2 ^ 52). lia.
Qed.


(** Adding 195 to a finite positive double not above 60 yields a
    double between 195 and 255, with exponent -45. *)
Lemma SFadd_195 (m2 : positive) (e2 : Z) :
  e2 <= -47 ->
  Zpos m2 <= 60 * 2 ^ (- e2) ->
  exists r,
    SFadd prec emax (S754_finite false m2 e2) (S754_finite false 6860952557322240 (-45))
      = S754_finite false r (-45) /\
    195 * 2 ^ 45 <= Zpos r <= 255 * 2 ^ 45.
Proof.
  intros He Hm.
  assert (exists k : positive, -45 - e2 = Zpos k) as [k Hk]
    by (destruct (-45 - e2) as [ | k | k ] eqn:E; try lia; eauto).
  assert (2 ^ (- e2) = 2 ^ 45 * 2 ^ Zpos k) as Hpow
    by (rewrite <- Z.pow_add_r by lia; f_equal; lia).
  assert (0 < 2 ^ Zpos k) as Hp by (apply Z.pow_pos_nonneg; lia).
  cbn [SFadd]. rewrite Z.min_l by lia.
  unfold shl_align at 1. rewrite Z.sub_diag. cbn [fst cond_Zopp].
  unfold shl_align. replace (e2 - -45) with (Zneg k) by lia. cbn [fst].
  cbn [Z.add binary_normalize]. unfold binary_round.
  set (S := (m2 + Pos.iter xO 6860952557322240 k)%positive).
  assert (Zpos S = Zpos m2 + 195 * 2 ^ (- e2)) as HS.
  { subst S. rewrite Pos2Z.inj_add, iter_xO_pow, Hpow.
    change (Zpos 6860952557322240) with (195 * 2 ^ 45). ring. }
  assert (Zpos (digits2_pos S) = 8 - e2) as HdS.
  { apply digits2_unique. rewrite HS.
    replace (8 - e2 - 1) with (7 + - e2) by lia.
    replace (8 - e2) with (8 + - e2) by lia.
    rewrite !Z.pow_add_r by lia.
    assert (0 < 2 ^ (- e2)) by (apply Z.pow_pos_nonneg; lia).
    change (2 ^ 7) with 128. change (2 ^ 8) with 256.
    clear Hpow. set (P := 2 ^ (- e2)) in *. lia. }
  rewrite HdS. replace (8 - e2 + e2) with 8 by lia.
  change (fexp prec emax 8) with (-45).
  unfold shl_align. rewrite Hk.
  destruct (binary_round_aux_range false S 6860952557322240 8972014882652160 e2 (Zpos k))
    as (r & Hr & Hrr).
  - lia.
  - replace (e2 + Zpos k) with (-45) by (clear - Hk; lia). reflexivity.
  - reflexivity.
  - rewrite HS. rewrite Hpow in Hm |- *.
    set (K := 2 ^ Zpos k) in *. lia.
  - assert (e2 + Zpos k = -45) as Ek by (clear - Hk; lia).
    rewrite Ek in Hr. exists r. split; [ exact Hr | ].
    exact Hrr.
Qed.

End Binary64.

(** ** Unit conversions *)

Example conversion_samples :
  round_nearest 0.6 = Some 1 /\ round_nearest 0.5 = Some 1 /\
  round_nearest 0.4 = Some 0 /\ round_nearest 59.0 = Some 59 /\
  round_nearest (-1.5) = Some (-2) /\ Double.truncate 195.6 = Some 195 /\
  Double.truncate (-1.5) = Some (-1) /\ Double.of_Z 195 = 195%float /\
  Double.of_Z 41950 = 41950%float /\ Double.to_unsigned 8 257.9 = 1 /\
  _convert_rx_gain_to_mykonos 30 = 255 /\ _convert_rx_gain_to_mykonos 0 = 195.
Proof. vm_compute. repeat split. Qed.

Lemma rx_gain_range_cases (g : float) :
  in_rx_gain_range g = true ->
  (exists s, Prim2SF g = S754_zero s) \/
  (exists m e, Prim2SF g = S754_finite false m e /\
               bounded prec emax m e = true /\
               (e < -48 \/ e = -48 /\ Zpos m <= 30 * 2 ^ 48)).
Proof.
  unfold in_rx_gain_range. rewrite andb_true_iff, !leb_spec.
  change (Prim2SF MIN_RX_GAIN) with (S754_zero false).
  change (Prim2SF MAX_RX_GAIN) with (S754_finite false 8444249301319680 (-48)).
  pose proof (Prim2SF_valid g) as Hv.
  destruct (Prim2SF g) as [ s | s | | s m e ]; unfold SFleb; cbn [SFcompare valid_binary] in *.
  - intros _. left. eauto.
  - destruct s; intros [H1 H2]; discriminate.
  - intros [H1 _]. discriminate.
  - destruct s; intros [H1 H2]; [ discriminate | ].
    right. exists m, e. split; [ reflexivity | ]. split; [ exact Hv | ].
    destruct (Z.compare_spec e (-48)) as [E | E | E]; [ | left; exact E | discriminate ].
    right. split; [ exact E | ].
    change (30 * 2 ^ 48) with (Zpos 8444249301319680).
    apply Pos2Z.pos_le_pos. unfold Pos.le, Pos.compare.
    destruct (Pos.compare_cont Eq m 8444249301319680); discriminate.
Qed.

(** C3 (as amended): for every gain in [0, 30] dB the RX encoder
    returns the integer part of [gain * 2 + 195] as computed in double
    precision (truncation toward zero, not rounding to nearest); the
    cast is in range there and the code lies in 195..255. *)
Theorem rx_gain_to_mykonos_truncates (g : float) :
  in_rx_gain_range g = true ->
  exists z,
    Double.truncate (g * 2 + 195)%float = Some z /\
    195 <= z <= 255 /\
    _convert_rx_gain_to_mykonos g = z.
Proof.
  intros Hg.
  assert (exists z, Double.truncate (g * 2 + 195)%float = Some z /\ 195 <= z <= 255)
    as (z & Hz & Hr).
  { unfold Double.truncate. rewrite add_spec, mul_spec.
    change (Prim2SF 2) with (S754_finite false 4503599627370496 (-51)).
    change (Prim2SF 195) with (S754_finite false 6860952557322240 (-45)).
    destruct (rx_gain_range_cases g Hg) as [ [s Hs] | (m & e & Hx & Hb & Hle) ].
    - rewrite Hs. exists 195. split; [ reflexivity | lia ].
    - rewrite Hx. unfold SF64mul, SF64add.
      destruct (SFmul_two m e Hb) as (m2 & e2 & Hmul & He2 & Hval & Hm2).
      { change emax with 1024. change prec with 53. lia. }
      rewrite Hmul.
      destruct (SFadd_195 m2 e2) as (r & Hadd & Hrr).
      + lia.
      + destruct (Z.le_gt_cases e2 (-48)) as [Hs | Hs].
        * assert (2 ^ 48 <= 2 ^ (- e2)) by (apply Z.pow_le_mono_r; lia).
          change (2 ^ 53) with (32 * 2 ^ 48) in Hm2. lia.
        * assert (e = -48) as Ee by lia. assert (e2 = -47) as Ee2 by lia.
          subst e e2. destruct Hle as [Hle | [_ Hle]]; [ lia | ].
          change (-47 - -48) with 1 in Hval. change (2 ^ 1) with 2 in Hval.
          change (- -47) with 47. change (2 ^ 47) with 140737488355328.
          change (2 ^ 48) with 281474976710656 in Hle. lia.
      + rewrite Hadd. cbn [cond_Zopp].
        exists (Z.shiftl (Zpos r) (-45)). split; [ reflexivity | ].
        change (Z.shiftl (Zpos r) (-45)) with (Z.shiftr (Zpos r) 45).
        rewrite Z.shiftr_div_pow2 by lia.
        split; [ apply Z.div_le_lower_bound | apply Z.div_le_upper_bound ]; lia. }
  exists z. split; [ exact Hz | ]. split; [ exact Hr | ].
  unfold _convert_rx_gain_to_mykonos, Double.to_unsigned. rewrite Hz.
  apply Z.mod_small. change (2 ^ 8) with 256. lia.
Qed.

Lemma rx_gain_to_mykonos_truncates_witness :
  in_rx_gain_range 0.3 = true /\
  exists z,
    Double.truncate (0.3 * 2 + 195)%float = Some z /\
    195 <= z <= 255 /\
    _convert_rx_gain_to_mykonos 0.3 = z.
Proof.
  split; [ reflexivity | apply (rx_gain_to_mykonos_truncates 0.3); reflexivity ].
Defined.

(** C3 (as stated) fails at 0.3 dB: the gain is in range, rounding to
    nearest gives 196, and the encoder returns 195. *)
Lemma rx_gain_to_mykonos_not_rounded :
  in_rx_gain_range 0.3 = true /\
  spec_rx_gain_code 0.3 = Some 196 /\
  _convert_rx_gain_to_mykonos 0.3 = 195 /\
  Some (_convert_rx_gain_to_mykonos 0.3) <> spec_rx_gain_code 0.3.
Proof.
  repeat split; try (vm_compute; reflexivity).
  vm_compute. discriminate.
Qed.

(** On the half-dB grid truncation loses nothing: step [k] is encoded
    as [195 + k]. *)
Lemma rx_gain_to_mykonos_on_grid (k : Z) :
  0 <= k <= 60 -> _convert_rx_gain_to_mykonos (rx_half_step k) = 195 + k.
Proof.
  intros Hk.
  assert (forallb (fun n => _convert_rx_gain_to_mykonos (rx_half_step (Z.of_nat n))
                            =? 195 + Z.of_nat n) (seq 0 61) = true) as H
    by (vm_compute; reflexivity).
  rewrite forallb_forall in H.
  specialize (H (Z.to_nat k)). rewrite Z2Nat.id in H by lia.
  apply Z.eqb_eq, H, in_seq. lia.
Qed.

(** C4: the TX encoder maps the two boundary gains exactly:
    0.0 dB to code 41950 and 41.95 dB to code 0, in double precision
    and with the 16-bit cast in range. *)
Theorem tx_gain_to_mykonos_boundaries :
  _convert_tx_gain_to_mykonos 0.0 = 41950 /\
  _convert_tx_gain_to_mykonos 41.95 = 0 /\
  Double.cast_defined 16 ((MAX_TX_GAIN - 0.0) * 1e3)%float = true /\
  Double.cast_defined 16 ((MAX_TX_GAIN - 41.95) * 1e3)%float = true.
Proof. vm_compute. repeat split. Qed.

(** Equality of the language on doubles is identity, except that the
    two zeros compare equal. *)
Lemma float_eqb_cases (x y : float) :
  (x =? y)%float = true ->
  x = y \/ ((x = 0%float \/ x = (-0)%float) /\ (y = 0%float \/ y = (-0)%float)).
Proof.
  rewrite eqb_spec. unfold SFeqb.
  assert (forall z s, Prim2SF z = S754_zero s -> z = 0%float \/ z = (-0)%float) as Hzero.
  { intros z s Hz. rewrite <- (SF2Prim_Prim2SF z), Hz. destruct s; auto. }
  destruct (Prim2SF x) as [ sx | sx | | sx mx ex ] eqn:Ex;
    destruct (Prim2SF y) as [ sy | sy | | sy my ey ] eqn:Ey;
    cbn [SFcompare]; intros H; try discriminate H;
    try (destruct sx; discriminate H); try (destruct sy; discriminate H).
  - right. eauto.
  - left. apply Prim2SF_inj. rewrite Ex, Ey.
    destruct sx, sy; try discriminate H; reflexivity.
  - left. apply Prim2SF_inj. rewrite Ex, Ey.
    destruct sx, sy; try discriminate H;
      destruct (Z.compare_spec ex ey) as [E | E | E]; try discriminate H; subst ey;
      destruct (Pos.compare_cont Eq mx my) eqn:Em; try discriminate H;
      apply Pos.compare_eq in Em; subst my; reflexivity.
Qed.

Lemma rx_round_trip_table :
  forallb (fun n => rx_round_trip_ok (rx_half_step (Z.of_nat n))) (seq 0 61) = true.
Proof. vm_compute. reflexivity. Qed.

Lemma rx_round_trip_half_step (k : Z) :
  0 <= k <= 60 -> rx_round_trip_ok (rx_half_step k) = true.
Proof.
  intros Hk. pose proof rx_round_trip_table as H.
  rewrite forallb_forall in H.
  specialize (H (Z.to_nat k)). rewrite Z2Nat.id in H by lia.
  apply H, in_seq. lia.
Qed.

(** C5: for every gain on the half-dB grid of [0, 30], decoding the
    encoded RX gain gives the gain back, under the equality of the
    language on doubles. *)
Theorem rx_gain_round_trip (g : float) :
  on_rx_grid g ->
  (_convert_rx_gain_from_mykonos (_convert_rx_gain_to_mykonos g) =? g)%float = true.
Proof.
  intros (k & Hk & Heq). fold (rx_round_trip_ok g).
  destruct (float_eqb_cases _ _ Heq) as [ -> | [[-> | ->] _] ].
  - apply rx_round_trip_half_step, Hk.
  - reflexivity.
  - reflexivity.
Qed.

Lemma rx_gain_round_trip_witness :
  on_rx_grid 12.5 /\
  (_convert_rx_gain_from_mykonos (_convert_rx_gain_to_mykonos 12.5) =? 12.5)%float = true.
Proof.
  assert (on_rx_grid 12.5) as H by (exists 25; split; [ lia | reflexivity ]).
  split; [ exact H | exact (rx_gain_round_trip 12.5 H) ].
Defined.

(** ** Config-state bracketing *)

Lemma land_3_both_bits (x : Z) :
  (Z.land (uint32 x) 3 =? 3) = Z.testbit x 0 && Z.testbit x 1.
Proof.
  unfold uint32. rewrite <- Z.land_ones, <- Z.land_assoc by lia.
  change (Z.land (Z.ones 32) 3) with 3.
  destruct (Z.eqb_spec (Z.land x 3) 3) as [E | E].
  - pose proof (f_equal (fun v => Z.testbit v 0) E) as E0.
    pose proof (f_equal (fun v => Z.testbit v 1) E) as E1.
    cbv beta in E0, E1. rewrite Z.land_spec in E0, E1.
    change (Z.testbit 3 0) with true in E0. change (Z.testbit 3 1) with true in E1.
    rewrite andb_true_r in E0, E1. rewrite E0, E1. reflexivity.
  - destruct (Z.testbit x 0) eqn:B0; [ | reflexivity ].
    destruct (Z.testbit x 1) eqn:B1; [ | reflexivity ].
    exfalso. apply E. apply Z.bits_inj'. intros n Hn. rewrite Z.land_spec.
    destruct (Z.eq_dec n 0) as [-> | N0]; [ rewrite B0; reflexivity | ].
    destruct (Z.eq_dec n 1) as [-> | N1]; [ rewrite B1; reflexivity | ].
    change 3 with (Z.ones 2). rewrite Z.ones_spec_high by lia. apply andb_false_r.
Qed.

(** C6: when the radio-state query answers with a status word,
    [_move_to_config_state] issues exactly one radio-off call if both
    of the two lowest status bits are set and no call besides the query
    otherwise; it returns ON exactly in the first case (the radio-off
    call having succeeded) and OFF in the second.
    [_restore_from_config_state ON] issues exactly one radio-on call
    and [_restore_from_config_state OFF] does nothing. *)
Theorem config_state_bracketing (hw : board) (d : ad937x_device) (status out2 : Z) :
  mykonos hw (trace d) MYKONOS_getRadioState = (MYKONOS_ERR_OK, (status, out2)) ->
  let both_on := Z.testbit status 0 && Z.testbit status 1 in
  let r := _move_to_config_state hw d in
  trace (snd r) =
    trace d ++ Api MYKONOS_getRadioState ::
      (if both_on then [Api MYKONOS_radioOff] else []) /\
  (both_on = false -> r = (Return OFF, log (Api MYKONOS_getRadioState) d)) /\
  (both_on = true ->
   fst (mykonos hw (trace d ++ [Api MYKONOS_getRadioState]) MYKONOS_radioOff)
     = MYKONOS_ERR_OK ->
   fst r = Return ON) /\
  (fst r = Return ON -> both_on = true) /\
  (forall d0, trace (snd (_restore_from_config_state hw ON d0))
              = trace d0 ++ [Api MYKONOS_radioOn]) /\
  (forall d0, _restore_from_config_state hw OFF d0 = (Return tt, d0)).
Proof.
  intros Hq. cbv zeta.
  assert (forall d0, trace (snd (_restore_from_config_state hw ON d0))
                     = trace d0 ++ [Api MYKONOS_radioOn]) as Hon.
  { intros d0. unfold _restore_from_config_state, start_radio, _call_api_function,
      vendor, bind, ret, throw.
    destruct (fst (mykonos hw (trace d0) MYKONOS_radioOn)); reflexivity. }
  unfold _move_to_config_state, stop_radio, _call_api_function, vendor, bind, ret, throw.
  rewrite Hq. cbn [fst snd]. rewrite land_3_both_bits.
  destruct (Z.testbit status 0 && Z.testbit status 1) eqn:Hboth; cbn [log trace fst snd].
  - destruct (mykonos hw (trace d ++ [Api MYKONOS_getRadioState]) MYKONOS_radioOff)
      as [[ | code] outs] eqn:Hoff; cbn [log trace fst snd]; rewrite <- app_assoc;
      repeat split; try reflexivity; try discriminate; exact Hon.
  - repeat split; try reflexivity; try discriminate; exact Hon.
Qed.

Lemma config_state_bracketing_witness :
  mykonos (bench_board 3 0 None) (trace bench_device) MYKONOS_getRadioState
    = (MYKONOS_ERR_OK, (3, 0)) /\
  trace (snd (_move_to_config_state (bench_board 3 0 None) bench_device))
    = [Api MYKONOS_getRadioState; Api MYKONOS_radioOff] /\
  fst (_move_to_config_state (bench_board 3 0 None) bench_device) = Return ON.
Proof.
  assert (mykonos (bench_board 3 0 None) (trace bench_device) MYKONOS_getRadioState
          = (MYKONOS_ERR_OK, (3, 0))) as H by reflexivity.
  split; [ exact H | ].
  pose proof (config_state_bracketing (bench_board 3 0 None) bench_device 3 0 H)
    as (Htrace & _ & Hon & _).
  split; [ exact Htrace | exact (Hon eq_refl eq_refl) ].
Defined.

(** ** Gain-pin store *)

Create HintDb store discriminated.

Lemma keeps_store_ret {A} (a : A) : keeps_store (ret a).
Proof. intro d. reflexivity. Qed.

Lemma keeps_store_throw {A} (e : exn) : keeps_store (@throw A e).
Proof. intro d. reflexivity. Qed.

Lemma keeps_store_bind {A B} (m : M A) (f : A -> M B) :
  keeps_store m -> (forall a, keeps_store (f a)) -> keeps_store (bind m f).
Proof.
  intros Hm Hf d. unfold bind. specialize (Hm d).
  destruct (m d) as [[a | e | ] d1]; cbn [snd] in *; [ | exact Hm | exact Hm ].
  rewrite Hf. exact Hm.
Qed.

Lemma keeps_store_vendor hw c : keeps_store (vendor hw c).
Proof. intro d. reflexivity. Qed.

Lemma keeps_store_vendor_gpio hw c : keeps_store (vendor_gpio hw c).
Proof. intro d. reflexivity. Qed.

#[local] Hint Resolve keeps_store_ret keeps_store_throw keeps_store_vendor
  keeps_store_vendor_gpio : store.
#[local] Hint Extern 2 (keeps_store (bind _ _)) =>
  apply keeps_store_bind; [ | intro ] : store.
#[local] Hint Extern 3 (keeps_store (match ?x with _ => _ end)) => destruct x : store.
#[local] Hint Extern 3 (keeps_store (if ?x then _ else _)) => destruct x : store.

Lemma keeps_store_call_api hw c : keeps_store (_call_api_function hw c).
Proof. unfold _call_api_function. auto with store. Qed.

Lemma keeps_store_call_gpio hw c : keeps_store (_call_gpio_api_function hw c).
Proof. unfold _call_gpio_api_function. auto with store. Qed.

#[local] Hint Resolve keeps_store_call_api keeps_store_call_gpio : store.

Lemma keeps_store_move hw : keeps_store (_move_to_config_state hw).
Proof. unfold _move_to_config_state, stop_radio. auto 8 with store. Qed.

Lemma keeps_store_restore hw state : keeps_store (_restore_from_config_state hw state).
Proof. unfold _restore_from_config_state, start_radio. auto 8 with store. Qed.

Lemma keeps_store_config_read direction chain : keeps_store (config_read direction chain).
Proof. intro d. unfold config_read. destruct (config_at _ _ _); reflexivity. Qed.

#[local] Hint Resolve keeps_store_move keeps_store_restore keeps_store_config_read : store.

Lemma keeps_store_apply_gain_pins hw direction chain :
  keeps_store (_apply_gain_pins hw direction chain).
Proof. unfold _apply_gain_pins. auto 12 with store. Qed.

Lemma config_at_put (c : ad937x_gain_ctrl_config_t) direction chain ch :
  direction <> DX_DIRECTION ->
  config_at (config_put c direction chain ch) direction chain = Some ch.
Proof. destruct direction, chain; intros H; try reflexivity; contradiction. Qed.

Lemma config_at_put_other (c : ad937x_gain_ctrl_config_t) direction chain ch direction' chain' :
  (direction', chain') <> (direction, chain) ->
  config_at (config_put c direction chain ch) direction' chain' = config_at c direction' chain'.
Proof.
  destruct direction, chain, direction', chain'; intros H; try reflexivity;
    exfalso; apply H; reflexivity.
Qed.

(** The two assignments of [set_gain_pin_step_sizes], then the rest. *)
Lemma set_gain_pin_step_sizes_TX hw chain inc dec d :
  exists old,
    config_at (gain_ctrl d) TX_DIRECTION chain = Some old /\
    set_gain_pin_step_sizes hw TX_DIRECTION chain inc dec d =
      _apply_gain_pins hw TX_DIRECTION chain
        (with_gain_ctrl
           (config_put (gain_ctrl d) TX_DIRECTION chain
              (with_inc_step (Double.to_unsigned 8 (dec / 0.05)%float)
                 (with_dec_step (Double.to_unsigned 8 (inc / 0.05)%float) old))) d).
Proof.
  destruct chain; eexists; (split; [ reflexivity | ]);
    destruct d as [[c1 c2 c3 c4] rx tx tr]; reflexivity.
Qed.

Lemma set_gain_pin_step_sizes_RX hw chain inc dec d :
  exists old,
    config_at (gain_ctrl d) RX_DIRECTION chain = Some old /\
    set_gain_pin_step_sizes hw RX_DIRECTION chain inc dec d =
      _apply_gain_pins hw RX_DIRECTION chain
        (with_gain_ctrl
           (config_put (gain_ctrl d) RX_DIRECTION chain
              (with_dec_step (Double.to_unsigned 8 (dec / 0.5)%float)
                 (with_inc_step (Double.to_unsigned 8 (inc / 0.5)%float) old))) d).
Proof.
  destruct chain; eexists; (split; [ reflexivity | ]);
    destruct d as [[c1 c2 c3 c4] rx tx tr]; reflexivity.
Qed.

Lemma set_enable_gain_pins_store hw direction chain en d :
  direction <> DX_DIRECTION ->
  exists old,
    config_at (gain_ctrl d) direction chain = Some old /\
    set_enable_gain_pins hw direction chain en d =
      _apply_gain_pins hw direction chain
        (with_gain_ctrl (config_put (gain_ctrl d) direction chain (with_enable en old)) d).
Proof.
  intros Hd. destruct direction, chain; try contradiction;
    eexists; (split; [ reflexivity | ]); reflexivity.
Qed.

(** C9: for a TX chain, [set_gain_pin_step_sizes] stores the converted
    increment step in the store's decrement-step field and the
    converted decrement step in its increment-step field; for an RX
    chain increment goes to increment and decrement to decrement.  The
    pins and the enable flag of the channel stay as they were. *)
Theorem set_gain_pin_step_sizes_stores (hw : board) (chain : chain_t)
    (inc dec : float) (d : ad937x_device) :
  (exists old new,
      config_at (gain_ctrl d) TX_DIRECTION chain = Some old /\
      config_at (gain_ctrl (snd (set_gain_pin_step_sizes hw TX_DIRECTION chain inc dec d)))
        TX_DIRECTION chain = Some new /\
      dec_step new = Double.to_unsigned 8 (inc / 0.05)%float /\
      inc_step new = Double.to_unsigned 8 (dec / 0.05)%float /\
      (enable new, inc_pin new, dec_pin new) = (enable old, inc_pin old, dec_pin old)) /\
  (exists old new,
      config_at (gain_ctrl d) RX_DIRECTION chain = Some old /\
      config_at (gain_ctrl (snd (set_gain_pin_step_sizes hw RX_DIRECTION chain inc dec d)))
        RX_DIRECTION chain = Some new /\
      inc_step new = Double.to_unsigned 8 (inc / 0.5)%float /\
      dec_step new = Double.to_unsigned 8 (dec / 0.5)%float /\
      (enable new, inc_pin new, dec_pin new) = (enable old, inc_pin old, dec_pin old)).
Proof.
  split.
  - destruct (set_gain_pin_step_sizes_TX hw chain inc dec d) as (old & Hold & ->).
    exists old. eexists. split; [ exact Hold | ].
    rewrite keeps_store_apply_gain_pins. cbn [with_gain_ctrl gain_ctrl].
    rewrite config_at_put by discriminate.
    repeat split.
  - destruct (set_gain_pin_step_sizes_RX hw chain inc dec d) as (old & Hold & ->).
    exists old. eexists. split; [ exact Hold | ].
    rewrite keeps_store_apply_gain_pins. cbn [with_gain_ctrl gain_ctrl].
    rewrite config_at_put by discriminate.
    repeat split.
Qed.

(** C7: for a TX chain, when the converted increment and decrement
    step codes differ, [set_gain_pin_step_sizes] fails with the
    assertion failure and has made no vendor call at all: the history
    of the device is the one it started with. *)
Theorem set_gain_pin_step_sizes_tx_unequal (hw : board) (chain : chain_t)
    (inc dec : float) (d : ad937x_device) :
  Double.to_unsigned 8 (inc / 0.05)%float <> Double.to_unsigned 8 (dec / 0.05)%float ->
  fst (set_gain_pin_step_sizes hw TX_DIRECTION chain inc dec d) = Throw assertion_error /\
  trace (snd (set_gain_pin_step_sizes hw TX_DIRECTION chain inc dec d)) = trace d.
Proof.
  intros Hne.
  destruct (set_gain_pin_step_sizes_TX hw chain inc dec d) as (old & Hold & ->).
  unfold _apply_gain_pins, bind, config_read. cbn [with_gain_ctrl gain_ctrl].
  rewrite config_at_put by discriminate.
  cbn [inc_step dec_step with_inc_step with_dec_step].
  destruct (Z.eqb_spec (Double.to_unsigned 8 (dec / 0.05)%float)
              (Double.to_unsigned 8 (inc / 0.05)%float)) as [E | E].
  - exfalso. apply Hne. symmetry. exact E.
  - split; reflexivity.
Qed.

Lemma set_gain_pin_step_sizes_tx_unequal_witness :
  Double.to_unsigned 8 (0.05 / 0.05)%float <> Double.to_unsigned 8 (0.1 / 0.05)%float /\
  fst (set_gain_pin_step_sizes (bench_board 3 0 None) TX_DIRECTION ONE 0.05 0.1 bench_device)
    = Throw assertion_error /\
  trace (snd (set_gain_pin_step_sizes (bench_board 3 0 None) TX_DIRECTION ONE 0.05 0.1
                bench_device)) = trace bench_device.
Proof.
  assert (Double.to_unsigned 8 (0.05 / 0.05)%float <> Double.to_unsigned 8 (0.1 / 0.05)%float)
    as H by (vm_compute; discriminate).
  split; [ exact H | ].
  exact (set_gain_pin_step_sizes_tx_unequal (bench_board 3 0 None) ONE 0.05 0.1 bench_device H).
Defined.

(** C10: both setters write the store before the pin application
    validates or touches the hardware, and nothing restores it.
    Whatever the outcome of [set_gain_pin_step_sizes] (in particular
    when it throws), the channel in the store holds the newly converted
    steps; whatever the outcome of [set_enable_gain_pins], the channel
    holds the new flag, with steps and pins as they were.  When the
    steps stored for a TX chain differ, either setter ends in the
    assertion failure without any vendor call, and the store keeps what
    the setter wrote. *)
Theorem gain_pin_store_not_rolled_back (hw : board) (direction : direction_t)
    (chain : chain_t) (inc dec : float) (en : bool) (d : ad937x_device) :
  direction <> DX_DIRECTION ->
  (forall o d',
      set_gain_pin_step_sizes hw direction chain inc dec d = (o, d') ->
      exists new,
        config_at (gain_ctrl d') direction chain = Some new /\
        (direction = TX_DIRECTION ->
         inc_step new = Double.to_unsigned 8 (dec / 0.05)%float /\
         dec_step new = Double.to_unsigned 8 (inc / 0.05)%float) /\
        (direction = RX_DIRECTION ->
         inc_step new = Double.to_unsigned 8 (inc / 0.5)%float /\
         dec_step new = Double.to_unsigned 8 (dec / 0.5)%float)) /\
  (forall o d',
      set_enable_gain_pins hw direction chain en d = (o, d') ->
      exists old new,
        config_at (gain_ctrl d) direction chain = Some old /\
        config_at (gain_ctrl d') direction chain = Some new /\
        enable new = en /\
        (inc_step new, dec_step new, inc_pin new, dec_pin new)
        = (inc_step old, dec_step old, inc_pin old, dec_pin old)) /\
  (direction = TX_DIRECTION ->
   Double.to_unsigned 8 (inc / 0.05)%float <> Double.to_unsigned 8 (dec / 0.05)%float ->
   exists d',
     set_gain_pin_step_sizes hw direction chain inc dec d = (Throw assertion_error, d') /\
     trace d' = trace d) /\
  (direction = TX_DIRECTION ->
   forall old,
     config_at (gain_ctrl d) direction chain = Some old ->
     inc_step old <> dec_step old ->
     set_enable_gain_pins hw direction chain en d
     = (Throw assertion_error,
        with_gain_ctrl (config_put (gain_ctrl d) direction chain (with_enable en old)) d)).
Proof.
  intros Hd. split; [ | split; [ | split ] ].
  - intros o d' Hrun.
    pose proof (f_equal (fun r => gain_ctrl (snd r)) Hrun) as Hs. cbv beta in Hs.
    cbn [snd] in Hs. rewrite <- Hs. clear Hs Hrun.
    destruct direction; [ | | contradiction ].
    + destruct (set_gain_pin_step_sizes_RX hw chain inc dec d) as (old & Hold & ->).
      rewrite keeps_store_apply_gain_pins. cbn [with_gain_ctrl gain_ctrl].
      rewrite config_at_put by discriminate.
      eexists. split; [ reflexivity | ]. split; [ discriminate | ].
      intros _. split; reflexivity.
    + destruct (set_gain_pin_step_sizes_TX hw chain inc dec d) as (old & Hold & ->).
      rewrite keeps_store_apply_gain_pins. cbn [with_gain_ctrl gain_ctrl].
      rewrite config_at_put by discriminate.
      eexists. split; [ reflexivity | ]. split; [ | discriminate ].
      intros _. split; reflexivity.
  - intros o d' Hrun.
    pose proof (f_equal (fun r => gain_ctrl (snd r)) Hrun) as Hs. cbv beta in Hs.
    cbn [snd] in Hs. rewrite <- Hs. clear Hs Hrun.
    destruct (set_enable_gain_pins_store hw direction chain en d Hd) as (old & Hold & ->).
    rewrite keeps_store_apply_gain_pins. cbn [with_gain_ctrl gain_ctrl].
    rewrite config_at_put by exact Hd.
    exists old. eexists. split; [ exact Hold | ]. repeat split.
  - intros -> Hne.
    destruct (set_gain_pin_step_sizes_TX hw chain inc dec d) as (old & Hold & ->).
    eexists. split.
    + unfold _apply_gain_pins, bind, config_read. cbn [with_gain_ctrl gain_ctrl].
      rewrite config_at_put by discriminate.
      cbn [inc_step dec_step with_inc_step with_dec_step].
      destruct (Z.eqb_spec (Double.to_unsigned 8 (dec / 0.05)%float)
                  (Double.to_unsigned 8 (inc / 0.05)%float)) as [E | E];
        [ exfalso; apply Hne; symmetry; exact E | reflexivity ].
    + reflexivity.
  - intros -> old Hold Hne.
    destruct (set_enable_gain_pins_store hw TX_DIRECTION chain en d Hd) as (old' & Hold' & ->).
    rewrite Hold in Hold'. injection Hold' as <-.
    unfold _apply_gain_pins, bind, config_read. cbn [with_gain_ctrl gain_ctrl].
    rewrite config_at_put by discriminate.
    cbn [inc_step dec_step with_enable].
    destruct (Z.eqb_spec (inc_step old) (dec_step old)); [ contradiction | reflexivity ].
Qed.

Lemma gain_pin_store_not_rolled_back_witness :
  TX_DIRECTION <> DX_DIRECTION /\
  exists d',
    set_gain_pin_step_sizes (bench_board 3 0 None) TX_DIRECTION ONE 0.05 0.1 bench_device
      = (Throw assertion_error, d') /\
    config_at (gain_ctrl bench_device) TX_DIRECTION ONE = Some (bench_channel 4 5) /\
    (exists new,
        config_at (gain_ctrl d') TX_DIRECTION ONE = Some new /\
        inc_step new = 2 /\ dec_step new = 1) /\
    exists d'',
      set_enable_gain_pins (bench_board 3 0 None) TX_DIRECTION ONE true d'
        = (Throw assertion_error, d'') /\
      trace d'' = [] /\
      exists old new,
        config_at (gain_ctrl d') TX_DIRECTION ONE = Some old /\
        config_at (gain_ctrl d'') TX_DIRECTION ONE = Some new /\
        enable old = false /\
        enable new = true /\
        (inc_step new, dec_step new, inc_pin new, dec_pin new)
        = (inc_step old, dec_step old, inc_pin old, dec_pin old).
Proof.
  assert (TX_DIRECTION <> DX_DIRECTION) as Hd by discriminate.
  split; [ exact Hd | ].
  set (r1 := set_gain_pin_step_sizes (bench_board 3 0 None) TX_DIRECTION ONE 0.05 0.1
               bench_device).
  set (r2 := set_enable_gain_pins (bench_board 3 0 None) TX_DIRECTION ONE true (snd r1)).
  exists (snd r1). split; [ reflexivity | ]. split; [ reflexivity | ]. split.
  - destruct (proj1 (gain_pin_store_not_rolled_back (bench_board 3 0 None) TX_DIRECTION ONE
                       0.05 0.1 false bench_device Hd) (fst r1) (snd r1) eq_refl)
      as (new & Hnew & Htx & _).
    exists new. split; [ exact Hnew | ]. exact (Htx eq_refl).
  - exists (snd r2). split; [ reflexivity | ]. split; [ reflexivity | ].
    destruct (proj1 (proj2 (gain_pin_store_not_rolled_back (bench_board 3 0 None)
                              TX_DIRECTION ONE 0.05 0.1 true (snd r1) Hd))
                (fst r2) (snd r2) eq_refl)
      as (old & new & Hold & Hnew & Hen & Hrest).
    exists old, new. split; [ exact Hold | ]. split; [ exact Hnew | ].
    split; [ | split; [ exact Hen | exact Hrest ] ].
    vm_compute in Hold. injection Hold as <-. reflexivity.
Defined.

(** ** PLL lock status *)

Lemma land_eq_all_bits (s p : Z) :
  Z.land s p = p <-> (forall i, Z.testbit p i = true -> Z.testbit s i = true).
Proof.
  split.
  - intros E i Hp. rewrite <- E, Z.land_spec in Hp.
    apply andb_true_iff in Hp. tauto.
  - intros H. apply Z.bits_inj. intro i. rewrite Z.land_spec.
    destruct (Z.testbit p i) eqn:Hp; [ rewrite (H i Hp); reflexivity | apply andb_false_r ].
Qed.

Lemma pll_locked_now_run hw pll d st out2 :
  mykonos hw (trace d) MYKONOS_checkPllsLockStatus = (MYKONOS_ERR_OK, (st, out2)) ->
  pll_locked_now hw pll d
    = (Return (Z.land (uint8 st) pll =? pll), log (Api MYKONOS_checkPllsLockStatus) d).
Proof.
  intros H. unfold pll_locked_now, _call_api_function, vendor, bind, ret.
  rewrite H. reflexivity.
Qed.

Section NeverLocks.

Variable hw : board.
Variable pll : Z.
Variable lock_time : Z.
Variable horizon : nat.

Hypothesis never_locked :
  forall h, exists st out2,
    mykonos hw h MYKONOS_checkPllsLockStatus = (MYKONOS_ERR_OK, (st, out2)) /\
    Z.land (uint8 st) pll <> pll.

Hypothesis clock_passes :
  forall h, (horizon <= length h)%nat -> lock_time <= steady_clock hw h.

Lemma pll_locked_now_never d :
  pll_locked_now hw pll d = (Return false, log (Api MYKONOS_checkPllsLockStatus) d).
Proof.
  destruct (never_locked (trace d)) as (st & out2 & Hst & Hne).
  rewrite (pll_locked_now_run _ _ _ _ _ Hst).
  destruct (Z.eqb_spec (Z.land (uint8 st) pll) pll); [ contradiction | reflexivity ].
Qed.

(** While the PLLs stay unlocked the loop ends, once the clock has
    passed the deadline, right after the clock reading that showed it. *)
Lemma lock_wait_loop_never (fuel : nat) :
  forall d,
    (horizon <= length (trace d) + 2 * fuel)%nat ->
    exists mid t,
      lock_wait_loop hw fuel pll lock_time false d
        = (Return false,
           {| gain_ctrl := gain_ctrl d;
              rxPllLoFrequency_Hz := rxPllLoFrequency_Hz d;
              txPllLoFrequency_Hz := txPllLoFrequency_Hz d;
              trace := trace d ++ mid ++ [SteadyClockNow t] |}) /\
      lock_time <= t.
Proof.
  induction fuel as [ | fuel IH ]; intros d Hlen.
  - cbn [lock_wait_loop]. unfold bind, now. cbn [fst snd].
    destruct (Z.gtb_spec lock_time (steady_clock hw (trace d))) as [Hgt | Hle].
    + pose proof (clock_passes (trace d) ltac:(lia)). lia.
    + exists [], (steady_clock hw (trace d)). split; [ reflexivity | exact Hle ].
  - cbn [lock_wait_loop]. unfold bind at 1, now. cbn [fst snd].
    destruct (Z.gtb_spec lock_time (steady_clock hw (trace d))) as [Hgt | Hle].
    + unfold bind. rewrite pll_locked_now_never.
      destruct (IH (log (Api MYKONOS_checkPllsLockStatus)
                      (log (SteadyClockNow (steady_clock hw (trace d))) d)))
        as (mid & t & Hrun & Ht).
      { cbn [log trace]. rewrite !length_app. cbn [length]. lia. }
      rewrite Hrun. cbn [log trace gain_ctrl rxPllLoFrequency_Hz txPllLoFrequency_Hz].
      exists ([SteadyClockNow (steady_clock hw (trace d)); Api MYKONOS_checkPllsLockStatus]
              ++ mid), t.
      split; [ | exact Ht ]. rewrite <- !app_assoc. reflexivity.
    + exists [], (steady_clock hw (trace d)). split; [ reflexivity | exact Hle ].
Qed.

End NeverLocks.

(** C8: a single-shot check returns true exactly when every bit of the
    mask is set in the status the board reports, on any board and for
    any status.  When the board never reports all bits of the mask set
    and the clock passes the deadline, the waiting call returns false
    (given fuel for the rounds of its busy loop); the last thing it
    does, after the clock reading that showed the deadline passed, is
    one more single-shot check, and it returns the result of that
    check. *)
Theorem get_pll_lock_status_wait (hw : board) (pll : Z) (d : ad937x_device)
    (horizon : nat) :
  (forall fuel d0 st out2,
      mykonos hw (trace d0) MYKONOS_checkPllsLockStatus = (MYKONOS_ERR_OK, (st, out2)) ->
      exists b,
        get_pll_lock_status hw fuel pll false d0
          = (Return b, log (Api MYKONOS_checkPllsLockStatus) d0) /\
        (b = true <-> forall i, Z.testbit pll i = true -> Z.testbit (uint8 st) i = true)) /\
  ((forall h, exists st out2,
       mykonos hw h MYKONOS_checkPllsLockStatus = (MYKONOS_ERR_OK, (st, out2)) /\
       Z.land (uint8 st) pll <> pll) ->
   (forall h, (horizon <= length h)%nat ->
       steady_clock hw (trace d ++ [Api MYKONOS_checkPllsLockStatus])
         + milliseconds PLL_LOCK_TIMEOUT_MS <= steady_clock hw h) ->
   forall fuel, (horizon <= fuel)%nat ->
      exists mid t d',
        get_pll_lock_status hw fuel pll true d = (Return false, d') /\
        trace d' = trace d ++ mid ++ [SteadyClockNow t; Api MYKONOS_checkPllsLockStatus] /\
        steady_clock hw (trace d ++ [Api MYKONOS_checkPllsLockStatus])
          + milliseconds PLL_LOCK_TIMEOUT_MS <= t /\
        pll_locked_now hw pll
          {| gain_ctrl := gain_ctrl d;
             rxPllLoFrequency_Hz := rxPllLoFrequency_Hz d;
             txPllLoFrequency_Hz := txPllLoFrequency_Hz d;
             trace := trace d ++ mid ++ [SteadyClockNow t] |} = (Return false, d')).
Proof.
  split.
  - intros fuel d0 st out2 Hst. eexists. split.
    + unfold get_pll_lock_status, _call_api_function, vendor, bind, ret.
      rewrite Hst. reflexivity.
    + rewrite <- land_eq_all_bits. apply Z.eqb_eq.
  - intros Hnever Hclock fuel Hfuel.
    destruct (Hnever (trace d)) as (st & out2 & Hst & _).
    set (d1 := log (Api MYKONOS_checkPllsLockStatus) d).
    set (t0 := steady_clock hw (trace d1)).
    set (d2 := log (SteadyClockNow t0) d1).
    destruct (lock_wait_loop_never hw pll (t0 + milliseconds PLL_LOCK_TIMEOUT_MS) horizon
                Hnever Hclock fuel d2) as (mid & t & Hloop & Ht).
    { lia. }
    exists ([Api MYKONOS_checkPllsLockStatus; SteadyClockNow t0] ++ mid), t.
    eexists. split; [ | split; [ | split ] ].
    + unfold get_pll_lock_status, _call_api_function, vendor, bind, ret, now.
      rewrite Hst. cbn [fst snd negb]. fold d1. fold t0. fold d2.
      unfold bind in Hloop. rewrite Hloop. cbn [negb].
      apply (pll_locked_now_never hw pll Hnever).
    + cbn [log trace d2 d1]. rewrite <- !app_assoc. reflexivity.
    + exact Ht.
    + rewrite (pll_locked_now_never hw pll Hnever).
      cbn [log trace gain_ctrl rxPllLoFrequency_Hz txPllLoFrequency_Hz d2 d1].
      rewrite <- !app_assoc. reflexivity.
Qed.

Lemma get_pll_lock_status_wait_witness :
  (mykonos (bench_board 0 13 None) (trace bench_device) MYKONOS_checkPllsLockStatus
     = (MYKONOS_ERR_OK, (13, 0)) /\
   get_pll_lock_status (bench_board 0 13 None) 0 5 false bench_device
     = (Return true, log (Api MYKONOS_checkPllsLockStatus) bench_device) /\
   get_pll_lock_status (bench_board 0 13 None) 0 6 false bench_device
     = (Return false, log (Api MYKONOS_checkPllsLockStatus) bench_device) /\
   exists b,
     get_pll_lock_status (bench_board 0 13 None) 0 5 false bench_device
       = (Return b, log (Api MYKONOS_checkPllsLockStatus) bench_device) /\
     (b = true <-> forall i, Z.testbit 5 i = true -> Z.testbit (uint8 13) i = true)) /\
  (forall h, exists st out2,
      mykonos (bench_board 0 0 None) h MYKONOS_checkPllsLockStatus
        = (MYKONOS_ERR_OK, (st, out2)) /\
      Z.land (uint8 st) 1 <> 1) /\
  (forall h, (6 <= length h)%nat ->
      steady_clock (bench_board 0 0 None)
        (trace bench_device ++ [Api MYKONOS_checkPllsLockStatus])
        + milliseconds PLL_LOCK_TIMEOUT_MS <= steady_clock (bench_board 0 0 None) h) /\
  exists mid t d',
    get_pll_lock_status (bench_board 0 0 None) 6 1 true bench_device = (Return false, d') /\
    trace d' = trace bench_device ++ mid
                 ++ [SteadyClockNow t; Api MYKONOS_checkPllsLockStatus] /\
    steady_clock (bench_board 0 0 None)
      (trace bench_device ++ [Api MYKONOS_checkPllsLockStatus])
      + milliseconds PLL_LOCK_TIMEOUT_MS <= t /\
    pll_locked_now (bench_board 0 0 None) 1
      {| gain_ctrl := gain_ctrl bench_device;
         rxPllLoFrequency_Hz := rxPllLoFrequency_Hz bench_device;
         txPllLoFrequency_Hz := txPllLoFrequency_Hz bench_device;
         trace := trace bench_device ++ mid ++ [SteadyClockNow t] |} = (Return false, d').
Proof.
  assert (forall h, exists st out2,
             mykonos (bench_board 0 0 None) h MYKONOS_checkPllsLockStatus
               = (MYKONOS_ERR_OK, (st, out2)) /\
             Z.land (uint8 st) 1 <> 1) as H1.
  { intros h. exists 0, 0. split; [ reflexivity | vm_compute; discriminate ]. }
  assert (forall h, (6 <= length h)%nat ->
             steady_clock (bench_board 0 0 None)
               (trace bench_device ++ [Api MYKONOS_checkPllsLockStatus])
               + milliseconds PLL_LOCK_TIMEOUT_MS <= steady_clock (bench_board 0 0 None) h)
    as H2.
  { intros h Hh. cbn [steady_clock bench_board trace bench_device app length].
    unfold milliseconds, PLL_LOCK_TIMEOUT_MS. lia. }
  split.
  { split; [ reflexivity | ]. split; [ reflexivity | ]. split; [ reflexivity | ].
    exact (proj1 (get_pll_lock_status_wait (bench_board 0 13 None) 5 bench_device 0)
             0%nat bench_device 13 0 eq_refl). }
  split; [ exact H1 | ]. split; [ exact H2 | ].
  exact (proj2 (get_pll_lock_status_wait (bench_board 0 0 None) 1 bench_device 6) H1 H2
           6%nat (le_n 6)).
Defined.

(** ** Manual gain *)

(** Whenever [set_gain] returns for an RX chain, what it returns is
    the written gain-table index itself, as a double. *)
Lemma set_gain_rx_returns_code hw chain value d x d' :
  set_gain hw RX_DIRECTION chain value d = (Return x, d') ->
  x = Double.of_Z (_convert_rx_gain_to_mykonos value).
Proof.
  unfold set_gain, bind, ret.
  destruct (_move_to_config_state hw d) as [[state | e | ] d1]; try discriminate.
  destruct chain; cbv zeta;
    match goal with
    | |- context [_call_api_function hw ?c d1] =>
        destruct (_call_api_function hw c d1) as [[out | e | ] d2]
    end; try discriminate;
    destruct (_restore_from_config_state hw state d2) as [[[] | e | ] d3];
    try discriminate; intros H; inversion H; reflexivity.
Qed.

(** C2 (the code falls short of it): at 0 dB on RX chain one the
    wrapper writes index 195, whose decoded value is 0 dB, and returns
    195; at 0 dB on TX chain two it writes 41950 mdB of attenuation,
    whose decoded value is 0 dB, and returns 41950. *)
Theorem set_gain_returns_written_code :
  set_gain (bench_board 0 0 None) RX_DIRECTION ONE 0 bench_device
    = (Return 195%float,
       log (Api (MYKONOS_setRx1ManualGain 195)) (log (Api MYKONOS_getRadioState) bench_device)) /\
  _convert_rx_gain_from_mykonos 195 = 0%float /\
  fst (set_gain (bench_board 0 0 None) TX_DIRECTION TWO 0 bench_device) = Return 41950%float /\
  In (Api (MYKONOS_setTx2Attenuation 41950))
     (trace (snd (set_gain (bench_board 0 0 None) TX_DIRECTION TWO 0 bench_device))) /\
  _convert_tx_gain_from_mykonos 41950 = 0%float /\
  (195 =? 0)%float = false /\ (41950 =? 0)%float = false.
Proof.
  repeat split; try (vm_compute; reflexivity).
  vm_compute. right. left. reflexivity.
Qed.

(** ** Firmware load *)

Lemma skipn_repeat {A} (a : A) (n m : nat) : skipn n (repeat a m) = repeat a (m - n).
Proof.
  revert m. induction n as [ | n IH ]; intros [ | m ]; cbn [skipn repeat Nat.sub];
    try reflexivity. apply IH.
Qed.

(** A readable file shorter than the buffer is no error to
    [_get_arm_binary]: it returns the bytes followed by the zeros the
    buffer was created with. *)
Lemma get_arm_binary_short hw d bytes :
  firmware hw = Some {| contents := bytes; io_error := false |} ->
  Z.of_nat (length bytes) < ARM_BINARY_SIZE ->
  _get_arm_binary hw d
    = (Return (bytes ++ repeat 0 (Z.to_nat ARM_BINARY_SIZE - length bytes)), d).
Proof.
  intros Hfw Hlen. unfold _get_arm_binary, ifstream_read. rewrite Hfw.
  cbn [io_error contents].
  assert (length bytes <= Z.to_nat ARM_BINARY_SIZE)%nat as Hle by lia.
  rewrite firstn_all2 by exact Hle. rewrite skipn_repeat. reflexivity.
Qed.

Lemma bind_Return {A B} (m : M A) (f : A -> M B) d a d1 :
  m d = (Return a, d1) -> bind m f d = f a d1.
Proof. intros H. unfold bind. rewrite H. reflexivity. Qed.

(** C1 (the code falls short of it): with a three-byte firmware file and
    a board that answers every call with success, [finish_initialization]
    does not fail: it hands the vendor loader a buffer of 98304 bytes,
    the three bytes followed by zeros, and goes on through the whole RF
    initialization. *)
Theorem finish_initialization_short_firmware :
  Z.of_nat (length (contents short_firmware)) < ARM_BINARY_SIZE /\
  fst (finish_initialization (bench_board 0 15 (Some short_firmware)) bench_constants 1
         bench_device) = Return tt /\
  trace (snd (finish_initialization (bench_board 0 15 (Some short_firmware)) bench_constants 1
                bench_device)) =
      [Api (MYKONOS_enableMultichipSync 0); Api MYKONOS_initArm;
       Api (MYKONOS_loadArmFromBinary ([1; 2; 3] ++ repeat 0 (Z.to_nat ARM_BINARY_SIZE - 3)) 98304);
       Api MYKONOS_getRadioState;
       Api (MYKONOS_setRfPllFrequency RX_PLL 2500000000);
       Api (MYKONOS_getRfPllFrequency RX_PLL); Api MYKONOS_getRadioState;
       Api (MYKONOS_setRfPllFrequency TX_PLL 2500000000);
       Api (MYKONOS_getRfPllFrequency TX_PLL);
       Api MYKONOS_checkPllsLockStatus; SteadyClockNow 500000000;
       SteadyClockNow 550000000; Api MYKONOS_checkPllsLockStatus;
       Api MYKONOS_getRadioState;
       Gpio (MYKONOS_setRx1GainCtrlPin 1 1 0 1 false);
       Api MYKONOS_getRadioState;
       Gpio (MYKONOS_setRx2GainCtrlPin 1 1 2 3 false);
       Api MYKONOS_getRadioState;
       Gpio (MYKONOS_setTx1AttenCtrlPin 1 4 5 false 0);
       Api MYKONOS_getRadioState;
       Gpio (MYKONOS_setTx2AttenCtrlPin 1 6 7 false);
       Gpio MYKONOS_setupGpio; Api MYKONOS_getRadioState;
       Api (MYKONOS_setRx1ManualGain 195); Api MYKONOS_getRadioState;
       Api (MYKONOS_setRx2ManualGain 195); Api MYKONOS_getRadioState;
       Api (MYKONOS_setTx1Attenuation 41950); Api MYKONOS_getRadioState;
       Api (MYKONOS_setTx2Attenuation 41950); Api (MYKONOS_runInitCals 79);
       Api (MYKONOS_waitInitCals 10000); Api (MYKONOS_enableTrackingCals 0)].
Proof.
  split; [ reflexivity | ].
  unfold finish_initialization.
  rewrite (bind_Return _ _ _ tt (log (Api (MYKONOS_enableMultichipSync 0)) bench_device))
    by reflexivity.
  rewrite (bind_Return _ _ _ (0, 0)
             (log (Api MYKONOS_initArm)
                (log (Api (MYKONOS_enableMultichipSync 0)) bench_device)))
    by reflexivity.
  rewrite (bind_Return _ _ _ _ _
             (get_arm_binary_short (bench_board 0 15 (Some short_firmware)) _ [1; 2; 3]
                eq_refl eq_refl)).
  rewrite length_app, repeat_length.
  replace (Z.of_nat (length [1; 2; 3] + (Z.to_nat ARM_BINARY_SIZE - length [1; 2; 3])))
    with 98304 by (cbn [length]; unfold ARM_BINARY_SIZE; lia).
  cbn [length]. generalize ([1; 2; 3] ++ repeat 0 (Z.to_nat ARM_BINARY_SIZE - 3)).
  intros binary. split; vm_compute; reflexivity.
Qed.

(** * Further properties *)

(** ** Codes through the decoders and back *)

Lemma rx_code_table :
  forallb (fun n => _convert_rx_gain_to_mykonos (_convert_rx_gain_from_mykonos (Z.of_nat n))
                    =? Z.of_nat n) (seq 0 256) = true.
Proof. vm_compute. reflexivity. Qed.

(** X1: every 8-bit gain-table index survives decoding and encoding:
    the RX encoder is a left inverse of the RX decoder on 0..255. *)
Theorem rx_code_round_trip (c : Z) :
  0 <= c <= 255 ->
  _convert_rx_gain_to_mykonos (_convert_rx_gain_from_mykonos c) = c.
Proof.
  intros Hc. pose proof rx_code_table as H. rewrite forallb_forall in H.
  specialize (H (Z.to_nat c)). rewrite Z2Nat.id in H by lia.
  apply Z.eqb_eq, H, in_seq. lia.
Qed.

Lemma rx_code_round_trip_witness :
  0 <= 200 <= 255 /\
  _convert_rx_gain_to_mykonos (_convert_rx_gain_from_mykonos 200) = 200.
Proof.
  assert (0 <= 200 <= 255) as H by lia.
  split; [ exact H | exact (rx_code_round_trip 200 H) ].
Defined.

Lemma tx_code_table :
  forallb (fun c => (tx_code_again c =? c) || (tx_code_again c =? c - 1)) tx_codes = true.
Proof. vm_compute. reflexivity. Qed.

(** X2: a TX attenuation code does not always survive decoding and
    encoding.  For every code 0, 50, ..., 41950 the result is the code
    or the code less one, because the encoder truncates; code 50 comes
    back as 49, which is not a multiple of 50. *)
Theorem tx_code_round_trip_drifts (j : Z) :
  0 <= j <= 839 ->
  (tx_code_again (50 * j) = 50 * j \/ tx_code_again (50 * j) = 50 * j - 1) /\
  tx_code_again 50 = 49.
Proof.
  intros Hj. split; [ | vm_compute; reflexivity ].
  pose proof tx_code_table as H. rewrite forallb_forall in H.
  specialize (H (50 * j)).
  assert (In (50 * j) tx_codes) as Hin.
  { unfold tx_codes. rewrite <- (Z2Nat.id j) at 1 by lia.
    apply (in_map (fun n => 50 * Z.of_nat n)), in_seq. lia. }
  apply H in Hin. apply orb_true_iff in Hin.
  destruct Hin as [E | E]; apply Z.eqb_eq in E; auto.
Qed.

Lemma tx_code_round_trip_drifts_witness :
  0 <= 1 <= 839 /\
  (tx_code_again (50 * 1) = 50 * 1 \/ tx_code_again (50 * 1) = 50 * 1 - 1) /\
  tx_code_again 50 = 49.
Proof.
  assert (0 <= 1 <= 839) as H by lia.
  split; [ exact H | exact (tx_code_round_trip_drifts 1 H) ].
Defined.

(** ** Running member functions *)

Lemma bind_Throw {A B} (m : M A) (f : A -> M B) d e d1 :
  m d = (Throw e, d1) -> bind m f d = (Throw e, d1).
Proof. intros H. unfold bind. rewrite H. reflexivity. Qed.

Lemma bind_Return_inv {A B} (m : M A) (f : A -> M B) d b d2 :
  bind m f d = (Return b, d2) ->
  exists a d1, m d = (Return a, d1) /\ f a d1 = (Return b, d2).
Proof.
  unfold bind. destruct (m d) as [[a | e | ] d1]; intros H; try discriminate. eauto.
Qed.

Lemma call_api_ok hw c d :
  fst (mykonos hw (trace d) c) = MYKONOS_ERR_OK ->
  _call_api_function hw c d = (Return (snd (mykonos hw (trace d) c)), log (Api c) d).
Proof.
  intros H. unfold _call_api_function, vendor, bind, ret. cbn [fst snd]. rewrite H.
  reflexivity.
Qed.

Lemma call_api_failed hw c d code :
  fst (mykonos hw (trace d) c) = MYKONOS_ERR_FAILED code ->
  _call_api_function hw c d
    = (Throw (runtime_error (mykonos_message (MYKONOS_ERR_FAILED code))), log (Api c) d).
Proof.
  intros H. unfold _call_api_function, vendor, bind, throw. cbn [fst snd]. rewrite H.
  reflexivity.
Qed.

Lemma call_api_logs hw c d r d' :
  _call_api_function hw c d = (r, d') -> d' = log (Api c) d.
Proof.
  unfold _call_api_function, vendor, bind, ret, throw. cbn [fst snd].
  destruct (fst (mykonos hw (trace d) c)); intros H; inversion H; reflexivity.
Qed.

Lemma call_api_Return hw c d out d' :
  _call_api_function hw c d = (Return out, d') ->
  out = snd (mykonos hw (trace d) c) /\ d' = log (Api c) d.
Proof.
  unfold _call_api_function, vendor, bind, ret, throw. cbn [fst snd].
  destruct (fst (mykonos hw (trace d) c)); intros H; inversion H. split; reflexivity.
Qed.

Lemma call_gpio_ok hw c d :
  mykonos_gpio hw (trace d) c = MYKONOS_ERR_GPIO_OK ->
  _call_gpio_api_function hw c d = (Return tt, log (Gpio c) d).
Proof.
  intros H. unfold _call_gpio_api_function, vendor_gpio, bind, ret. rewrite H. reflexivity.
Qed.

Lemma trace_logs evs d : trace (logs evs d) = trace d ++ evs.
Proof.
  revert d. induction evs as [ | e evs IH ]; intro d; cbn [logs fold_left].
  - symmetry. apply app_nil_r.
  - fold (logs evs (log e d)). rewrite IH. cbn [log trace]. rewrite <- app_assoc. reflexivity.
Qed.

Lemma logs_app evs1 evs2 d : logs (evs1 ++ evs2) d = logs evs2 (logs evs1 d).
Proof. unfold logs. apply fold_left_app. Qed.

Lemma gain_ctrl_logs evs d : gain_ctrl (logs evs d) = gain_ctrl d.
Proof.
  revert d. induction evs as [ | e evs IH ]; intro d; cbn [logs fold_left]; [ reflexivity | ].
  fold (logs evs (log e d)). rewrite IH. reflexivity.
Qed.

Lemma lo_logs evs d :
  rxPllLoFrequency_Hz (logs evs d) = rxPllLoFrequency_Hz d /\
  txPllLoFrequency_Hz (logs evs d) = txPllLoFrequency_Hz d.
Proof.
  revert d. induction evs as [ | e evs IH ]; intro d; cbn [logs fold_left];
    [ split; reflexivity | ].
  fold (logs evs (log e d)). destruct (IH (log e d)) as [-> ->]. split; reflexivity.
Qed.

Lemma radio_on_land status : (Z.land (uint32 status) 3 =? 3) = radio_on status.
Proof. apply land_3_both_bits. Qed.

(** Entering the config state on a board whose calls succeed. *)
Lemma move_to_config_state_ok hw d :
  api_succeeds hw ->
  let status := fst (snd (mykonos hw (trace d) MYKONOS_getRadioState)) in
  _move_to_config_state hw d
    = (Return (if radio_on status then ON else OFF),
       logs (Api MYKONOS_getRadioState ::
               (if radio_on status then [Api MYKONOS_radioOff] else [])) d).
Proof.
  intros Hok. cbv zeta. unfold _move_to_config_state.
  rewrite (bind_Return _ _ _ _ _ (call_api_ok hw _ d (Hok _ _))).
  rewrite radio_on_land.
  destruct (radio_on _); [ | reflexivity ].
  unfold stop_radio.
  rewrite (bind_Return _ _ _ _ _
             (bind_Return _ _ _ _ _ (call_api_ok hw _ _ (Hok _ _)))).
  reflexivity.
Qed.

Lemma restore_from_config_state_ok hw state d :
  api_succeeds hw ->
  _restore_from_config_state hw state d
    = (Return tt, logs (match state with ON => [Api MYKONOS_radioOn] | OFF => [] end) d).
Proof.
  intros Hok. destruct state; [ reflexivity | ].
  unfold _restore_from_config_state, start_radio.
  rewrite (bind_Return _ _ _ _ _ (call_api_ok hw _ _ (Hok _ _))). reflexivity.
Qed.

Lemma bench_board_succeeds radio_status pll_status fw :
  api_succeeds (bench_board radio_status pll_status fw) /\
  gpio_succeeds (bench_board radio_status pll_status fw).
Proof. split; intros h c; [ destruct c; reflexivity | reflexivity ]. Qed.

(** ** Manual gain in the config state *)

(** X3: on a board whose calls succeed, [set_gain] for an RX or TX
    chain queries the radio state, writes the encoded gain with the
    setter of that chain (between radio-off and radio-on when the radio
    was on), and returns the written code as a double. *)
Theorem set_gain_bracketed (hw : board) (chain : chain_t) (value : float)
    (d : ad937x_device) :
  api_succeeds hw ->
  let status := fst (snd (mykonos hw (trace d) MYKONOS_getRadioState)) in
  set_gain hw RX_DIRECTION chain value d
    = (Return (Double.of_Z (_convert_rx_gain_to_mykonos value)),
       logs (bracketed status
               [Api (match chain with
                     | ONE => MYKONOS_setRx1ManualGain
                     | TWO => MYKONOS_setRx2ManualGain
                     end (_convert_rx_gain_to_mykonos value))]) d) /\
  set_gain hw TX_DIRECTION chain value d
    = (Return (Double.of_Z (_convert_tx_gain_to_mykonos value)),
       logs (bracketed status
               [Api (match chain with
                     | ONE => MYKONOS_setTx1Attenuation
                     | TWO => MYKONOS_setTx2Attenuation
                     end (_convert_tx_gain_to_mykonos value))]) d).
Proof.
  intros Hok. cbv zeta. unfold set_gain, bracketed.
  rewrite !(bind_Return _ _ _ _ _ (move_to_config_state_ok hw d Hok)).
  split; destruct chain; cbv zeta;
    rewrite (bind_Return _ _ _ _ _
               (bind_Return _ _ _ _ _ (call_api_ok hw _ _ (Hok _ _))));
    unfold ret at 1;
    rewrite (bind_Return _ _ _ _ _ (restore_from_config_state_ok hw _ _ Hok));
    unfold ret; destruct (radio_on _); reflexivity.
Qed.

Lemma set_gain_bracketed_witness :
  api_succeeds (bench_board 3 0 None) /\
  set_gain (bench_board 3 0 None) RX_DIRECTION TWO 12.5 bench_device
    = (Return 220%float,
       logs [Api MYKONOS_getRadioState; Api MYKONOS_radioOff;
             Api (MYKONOS_setRx2ManualGain 220); Api MYKONOS_radioOn] bench_device).
Proof.
  pose proof (proj1 (bench_board_succeeds 3 0 None)) as H.
  split; [ exact H | ].
  exact (proj1 (set_gain_bracketed (bench_board 3 0 None) TWO 12.5 bench_device H)).
Defined.

(** X4: [tune] and [get_gain] reject a direction that is neither RX
    nor TX before they do anything.  [set_gain] rejects it only after
    it has entered the config state: a radio that was on has been
    switched off, and nothing switches it back on. *)
Theorem invalid_direction_leaves_radio_off (hw : board) (k : header_constants)
    (fuel : nat) (chain : chain_t) (value : float) (wait_for_lock : bool)
    (d : ad937x_device) :
  api_succeeds hw ->
  radio_on (fst (snd (mykonos hw (trace d) MYKONOS_getRadioState))) = true ->
  tune hw k fuel DX_DIRECTION value wait_for_lock d = (Throw invalid_code_path, d) /\
  get_gain hw DX_DIRECTION chain d = (Throw invalid_code_path, d) /\
  set_gain hw DX_DIRECTION chain value d
    = (Throw invalid_code_path,
       logs [Api MYKONOS_getRadioState; Api MYKONOS_radioOff] d).
Proof.
  intros Hok Hon. split; [ reflexivity | ]. split; [ reflexivity | ].
  unfold set_gain.
  rewrite (bind_Return _ _ _ _ _ (move_to_config_state_ok hw d Hok)).
  rewrite Hon. reflexivity.
Qed.

Lemma invalid_direction_leaves_radio_off_witness :
  api_succeeds (bench_board 3 0 None) /\
  radio_on (fst (snd (mykonos (bench_board 3 0 None) (trace bench_device)
                        MYKONOS_getRadioState))) = true /\
  set_gain (bench_board 3 0 None) DX_DIRECTION ONE 1 bench_device
    = (Throw invalid_code_path,
       logs [Api MYKONOS_getRadioState; Api MYKONOS_radioOff] bench_device).
Proof.
  pose proof (proj1 (bench_board_succeeds 3 0 None)) as H.
  split; [ exact H | ]. split; [ reflexivity | ].
  exact (proj2 (proj2 (invalid_direction_leaves_radio_off (bench_board 3 0 None)
                         bench_constants 0 ONE 1 false bench_device H eq_refl))).
Defined.

(** X5: when the gain setter fails while the radio had been on,
    [set_gain] throws the vendor's error and the radio stays off: the
    setter is the last call made. *)
Theorem set_gain_failure_leaves_radio_off (hw : board) (chain : chain_t)
    (value : float) (d : ad937x_device) (status out2 : Z) (code : positive) :
  let setter :=
    match chain with
    | ONE => MYKONOS_setRx1ManualGain
    | TWO => MYKONOS_setRx2ManualGain
    end (_convert_rx_gain_to_mykonos value) in
  mykonos hw (trace d) MYKONOS_getRadioState = (MYKONOS_ERR_OK, (status, out2)) ->
  radio_on status = true ->
  fst (mykonos hw (trace d ++ [Api MYKONOS_getRadioState]) MYKONOS_radioOff)
    = MYKONOS_ERR_OK ->
  fst (mykonos hw (trace d ++ [Api MYKONOS_getRadioState; Api MYKONOS_radioOff]) setter)
    = MYKONOS_ERR_FAILED code ->
  set_gain hw RX_DIRECTION chain value d
    = (Throw (runtime_error (mykonos_message (MYKONOS_ERR_FAILED code))),
       logs [Api MYKONOS_getRadioState; Api MYKONOS_radioOff; Api setter] d).
Proof.
  cbv zeta. intros Hq Hon Hoff Hset.
  assert (_move_to_config_state hw d
          = (Return ON, logs [Api MYKONOS_getRadioState; Api MYKONOS_radioOff] d)) as Hmove.
  { unfold _move_to_config_state.
    rewrite (bind_Return _ _ _ (status, out2) (log (Api MYKONOS_getRadioState) d)).
    - cbn [fst]. rewrite radio_on_land, Hon. unfold stop_radio.
      rewrite (bind_Return _ _ _ _ _
                 (bind_Return _ _ _ _ _
                    (call_api_ok hw MYKONOS_radioOff (log (Api MYKONOS_getRadioState) d)
                       Hoff))).
      reflexivity.
    - rewrite call_api_ok; rewrite Hq; reflexivity. }
  unfold set_gain. rewrite (bind_Return _ _ _ _ _ Hmove).
  apply bind_Throw. destruct chain; cbv zeta; apply bind_Throw;
    apply call_api_failed; rewrite trace_logs; exact Hset.
Qed.

Lemma set_gain_failure_leaves_radio_off_witness :
  set_gain (faulty_board is_rx1_gain_setter 3 0 None) RX_DIRECTION ONE 0 bench_device
    = (Throw (runtime_error (mykonos_message (MYKONOS_ERR_FAILED 1))),
       logs [Api MYKONOS_getRadioState; Api MYKONOS_radioOff;
             Api (MYKONOS_setRx1ManualGain (_convert_rx_gain_to_mykonos 0))] bench_device).
Proof.
  exact (set_gain_failure_leaves_radio_off (faulty_board is_rx1_gain_setter 3 0 None)
           ONE 0 bench_device 3 0 1 eq_refl eq_refl eq_refl eq_refl).
Defined.

(** ** Tuning *)

Lemma bind_update {B} (g : ad937x_device -> ad937x_device) (f : unit -> M B) d :
  bind (fun d0 => (Return tt, g d0)) f d = f tt (g d).
Proof. reflexivity. Qed.

Lemma bind_ret {A B} (a : A) (f : A -> M B) d : bind (ret a) f d = f a d.
Proof. reflexivity. Qed.

(** X6: on a board whose calls succeed, [tune] without lock wait
    stores the requested frequency, truncated to an integer, in the
    config field of its direction, passes the same integer to the
    vendor in the config state, and returns what the vendor then
    reports as the PLL frequency, not what was requested.  The field
    of the other direction is left alone. *)
Theorem tune_returns_readback (hw : board) (k : header_constants) (fuel : nat)
    (value : float) (d : ad937x_device) :
  api_succeeds hw ->
  let hz := Double.to_unsigned 64 value in
  let status := fst (snd (mykonos hw (trace d) MYKONOS_getRadioState)) in
  let rx_events := bracketed status [Api (MYKONOS_setRfPllFrequency RX_PLL hz)] in
  let tx_events := bracketed status [Api (MYKONOS_setRfPllFrequency TX_PLL hz)] in
  let rx := tune hw k fuel RX_DIRECTION value false d in
  let tx := tune hw k fuel TX_DIRECTION value false d in
  (fst rx = Return (Double.of_Z (uint64 (fst (snd (mykonos hw (trace d ++ rx_events)
                                                     (MYKONOS_getRfPllFrequency RX_PLL))))))
   /\ trace (snd rx) = trace d ++ rx_events ++ [Api (MYKONOS_getRfPllFrequency RX_PLL)]
   /\ rxPllLoFrequency_Hz (snd rx) = hz
   /\ txPllLoFrequency_Hz (snd rx) = txPllLoFrequency_Hz d) /\
  (fst tx = Return (Double.of_Z (uint64 (fst (snd (mykonos hw (trace d ++ tx_events)
                                                     (MYKONOS_getRfPllFrequency TX_PLL))))))
   /\ trace (snd tx) = trace d ++ tx_events ++ [Api (MYKONOS_getRfPllFrequency TX_PLL)]
   /\ txPllLoFrequency_Hz (snd tx) = hz
   /\ rxPllLoFrequency_Hz (snd tx) = rxPllLoFrequency_Hz d).
Proof.
  intros Hok. cbv zeta. unfold tune, bracketed, get_freq.
  rewrite !(bind_Return _ _ _ _ _ (move_to_config_state_ok hw d Hok)).
  split.
  - rewrite bind_update.
    rewrite (bind_Return _ _ _ _ _ (call_api_ok hw _ _ (Hok _ _))).
    rewrite bind_ret.
    rewrite (bind_Return _ _ _ _ _ (restore_from_config_state_ok hw _ _ Hok)).
    rewrite (bind_Return _ _ _ _ _ (call_api_ok hw _ _ (Hok _ _))).
    unfold ret.
    destruct (radio_on _); cbn [fst snd logs fold_left log trace with_lo_frequency
                                  rxPllLoFrequency_Hz txPllLoFrequency_Hz app];
      rewrite <- ?app_assoc; cbn [app]; repeat split; reflexivity.
  - rewrite bind_update.
    rewrite (bind_Return _ _ _ _ _ (call_api_ok hw _ _ (Hok _ _))).
    rewrite bind_ret.
    rewrite (bind_Return _ _ _ _ _ (restore_from_config_state_ok hw _ _ Hok)).
    rewrite (bind_Return _ _ _ _ _ (call_api_ok hw _ _ (Hok _ _))).
    unfold ret.
    destruct (radio_on _); cbn [fst snd logs fold_left log trace with_lo_frequency
                                  rxPllLoFrequency_Hz txPllLoFrequency_Hz app];
      rewrite <- ?app_assoc; cbn [app]; repeat split; reflexivity.
Qed.

Lemma tune_returns_readback_witness :
  api_succeeds (bench_board 0 0 None) /\
  fst (tune (bench_board 0 0 None) bench_constants 0 RX_DIRECTION 915.5e6 false bench_device)
    = Return 2500000000%float /\
  rxPllLoFrequency_Hz
    (snd (tune (bench_board 0 0 None) bench_constants 0 RX_DIRECTION 915.5e6 false
            bench_device)) = 915500000.
Proof.
  pose proof (proj1 (bench_board_succeeds 0 0 None)) as H.
  split; [ exact H | ].
  pose proof (proj1 (tune_returns_readback (bench_board 0 0 None) bench_constants 0
                       915.5e6 bench_device H)) as (Hr & _ & Hf & _).
  split; [ exact Hr | exact Hf ].
Defined.

Lemma move_to_config_state_on hw d status out2 :
  mykonos hw (trace d) MYKONOS_getRadioState = (MYKONOS_ERR_OK, (status, out2)) ->
  radio_on status = true ->
  fst (mykonos hw (trace d ++ [Api MYKONOS_getRadioState]) MYKONOS_radioOff)
    = MYKONOS_ERR_OK ->
  _move_to_config_state hw d
    = (Return ON, logs [Api MYKONOS_getRadioState; Api MYKONOS_radioOff] d).
Proof.
  intros Hq Hon Hoff. unfold _move_to_config_state.
  rewrite (bind_Return _ _ _ (status, out2) (log (Api MYKONOS_getRadioState) d)).
  - cbn [fst]. rewrite radio_on_land, Hon. unfold stop_radio.
    rewrite (bind_Return _ _ _ _ _
               (bind_Return _ _ _ _ _
                  (call_api_ok hw MYKONOS_radioOff (log (Api MYKONOS_getRadioState) d)
                     Hoff))).
    reflexivity.
  - rewrite call_api_ok; rewrite Hq; reflexivity.
Qed.

(** X7: when the vendor refuses the new PLL frequency while the radio
    had been on, [tune] throws the vendor's error, in either direction.
    The config field of the direction's PLL already holds the new
    frequency, the field of the other PLL and the gain-pin store are as
    before, and the radio stays off: the refused call is the last one
    made. *)
Theorem tune_failure_keeps_frequency (hw : board) (k : header_constants) (fuel : nat)
    (direction : direction_t) (value : float) (wait_for_lock : bool) (d : ad937x_device)
    (status out2 : Z) (code : positive) :
  direction <> DX_DIRECTION ->
  let hz := Double.to_unsigned 64 value in
  let pll := match direction with TX_DIRECTION => TX_PLL | _ => RX_PLL end in
  mykonos hw (trace d) MYKONOS_getRadioState = (MYKONOS_ERR_OK, (status, out2)) ->
  radio_on status = true ->
  fst (mykonos hw (trace d ++ [Api MYKONOS_getRadioState]) MYKONOS_radioOff)
    = MYKONOS_ERR_OK ->
  fst (mykonos hw (trace d ++ [Api MYKONOS_getRadioState; Api MYKONOS_radioOff])
         (MYKONOS_setRfPllFrequency pll hz)) = MYKONOS_ERR_FAILED code ->
  let r := tune hw k fuel direction value wait_for_lock d in
  fst r = Throw (runtime_error (mykonos_message (MYKONOS_ERR_FAILED code))) /\
  trace (snd r) = trace d ++ [Api MYKONOS_getRadioState; Api MYKONOS_radioOff;
                              Api (MYKONOS_setRfPllFrequency pll hz)] /\
  gain_ctrl (snd r) = gain_ctrl d /\
  (direction = RX_DIRECTION ->
   rxPllLoFrequency_Hz (snd r) = hz /\
   txPllLoFrequency_Hz (snd r) = txPllLoFrequency_Hz d) /\
  (direction = TX_DIRECTION ->
   txPllLoFrequency_Hz (snd r) = hz /\
   rxPllLoFrequency_Hz (snd r) = rxPllLoFrequency_Hz d).
Proof.
  intros Hd. cbv zeta. intros Hq Hon Hoff Hset. unfold tune.
  destruct direction; [ | | contradiction ].
  all: rewrite (bind_Return _ _ _ _ _ (move_to_config_state_on hw d status out2 Hq Hon Hoff));
    rewrite bind_update;
    match goal with
    | |- context [with_lo_frequency ?p ?z ?dd] =>
        assert (fst (mykonos hw (trace (with_lo_frequency p z dd))
                       (MYKONOS_setRfPllFrequency p z))
                = MYKONOS_ERR_FAILED code) as Hset'
          by (cbn [with_lo_frequency trace]; rewrite trace_logs; exact Hset)
    end;
    rewrite (bind_Throw _ _ _ _ _ (call_api_failed hw _ _ code Hset'));
    cbn [fst snd log trace with_lo_frequency rxPllLoFrequency_Hz txPllLoFrequency_Hz
           gain_ctrl];
    rewrite trace_logs, gain_ctrl_logs, ?(proj1 (lo_logs _ _)), ?(proj2 (lo_logs _ _)),
      <- !app_assoc;
    repeat split; try reflexivity; discriminate.
Qed.

Lemma tune_failure_keeps_frequency_witness :
  (fst (tune (faulty_board is_pll_setter 3 0 None) bench_constants 0 RX_DIRECTION
          915.5e6 false bench_device)
     = Throw (runtime_error (mykonos_message (MYKONOS_ERR_FAILED 1))) /\
   trace (snd (tune (faulty_board is_pll_setter 3 0 None) bench_constants 0 RX_DIRECTION
                 915.5e6 false bench_device))
     = trace bench_device ++ [Api MYKONOS_getRadioState; Api MYKONOS_radioOff;
                              Api (MYKONOS_setRfPllFrequency RX_PLL 915500000)] /\
   rxPllLoFrequency_Hz
     (snd (tune (faulty_board is_pll_setter 3 0 None) bench_constants 0 RX_DIRECTION
             915.5e6 false bench_device)) = 915500000 /\
   txPllLoFrequency_Hz
     (snd (tune (faulty_board is_pll_setter 3 0 None) bench_constants 0 RX_DIRECTION
             915.5e6 false bench_device)) = txPllLoFrequency_Hz bench_device) /\
  (fst (tune (faulty_board is_pll_setter 3 0 None) bench_constants 0 TX_DIRECTION
          2400e6 true bench_device)
     = Throw (runtime_error (mykonos_message (MYKONOS_ERR_FAILED 1))) /\
   trace (snd (tune (faulty_board is_pll_setter 3 0 None) bench_constants 0 TX_DIRECTION
                 2400e6 true bench_device))
     = trace bench_device ++ [Api MYKONOS_getRadioState; Api MYKONOS_radioOff;
                              Api (MYKONOS_setRfPllFrequency TX_PLL 2400000000)] /\
   txPllLoFrequency_Hz
     (snd (tune (faulty_board is_pll_setter 3 0 None) bench_constants 0 TX_DIRECTION
             2400e6 true bench_device)) = 2400000000 /\
   rxPllLoFrequency_Hz
     (snd (tune (faulty_board is_pll_setter 3 0 None) bench_constants 0 TX_DIRECTION
             2400e6 true bench_device)) = rxPllLoFrequency_Hz bench_device).
Proof.
  split.
  - destruct (tune_failure_keeps_frequency (faulty_board is_pll_setter 3 0 None)
                bench_constants 0 RX_DIRECTION 915.5e6 false bench_device 3 0 1
                ltac:(discriminate) eq_refl eq_refl eq_refl eq_refl)
      as (Hthrow & Htrace & _ & Hrx & _).
    destruct (Hrx eq_refl) as (Hnew & Hother).
    split; [ exact Hthrow | ]. split; [ exact Htrace | ].
    split; [ exact Hnew | exact Hother ].
  - destruct (tune_failure_keeps_frequency (faulty_board is_pll_setter 3 0 None)
                bench_constants 0 TX_DIRECTION 2400e6 true bench_device 3 0 1
                ltac:(discriminate) eq_refl eq_refl eq_refl eq_refl)
      as (Hthrow & Htrace & _ & _ & Htx).
    destruct (Htx eq_refl) as (Hnew & Hother).
    split; [ exact Hthrow | ]. split; [ exact Htrace | ].
    split; [ exact Hnew | exact Hother ].
Defined.

Lemma logs_record evs d :
  logs evs d
  = {| gain_ctrl := gain_ctrl d;
       rxPllLoFrequency_Hz := rxPllLoFrequency_Hz d;
       txPllLoFrequency_Hz := txPllLoFrequency_Hz d;
       trace := trace d ++ evs |}.
Proof.
  revert d. induction evs as [ | e evs IH ]; intro d; cbn [logs fold_left].
  - destruct d. cbn. rewrite app_nil_r. reflexivity.
  - fold (logs evs (log e d)). rewrite IH. cbn [log gain_ctrl rxPllLoFrequency_Hz
      txPllLoFrequency_Hz trace]. rewrite <- app_assoc. reflexivity.
Qed.

(** The waiting lock query on a board that never reports the lock: the
    clock reading before the last check is past the deadline. *)
Lemma get_pll_lock_status_never hw pll horizon d fuel :
  (forall h, exists st out2,
      mykonos hw h MYKONOS_checkPllsLockStatus = (MYKONOS_ERR_OK, (st, out2)) /\
      Z.land (uint8 st) pll <> pll) ->
  (forall h, (horizon <= length h)%nat ->
      steady_clock hw (trace d ++ [Api MYKONOS_checkPllsLockStatus])
        + milliseconds PLL_LOCK_TIMEOUT_MS <= steady_clock hw h) ->
  (horizon <= fuel)%nat ->
  exists mid t,
    get_pll_lock_status hw fuel pll true d
      = (Return false,
         logs (mid ++ [SteadyClockNow t; Api MYKONOS_checkPllsLockStatus]) d) /\
    steady_clock hw (trace d ++ [Api MYKONOS_checkPllsLockStatus])
      + milliseconds PLL_LOCK_TIMEOUT_MS <= t.
Proof.
  intros Hnever Hclock Hfuel.
  destruct (Hnever (trace d)) as (st & out2 & Hst & _).
  set (d1 := log (Api MYKONOS_checkPllsLockStatus) d).
  set (t0 := steady_clock hw (trace d1)).
  set (d2 := log (SteadyClockNow t0) d1).
  destruct (lock_wait_loop_never hw pll (t0 + milliseconds PLL_LOCK_TIMEOUT_MS) horizon
              Hnever Hclock fuel d2) as (mid & t & Hloop & Ht).
  { lia. }
  exists ([Api MYKONOS_checkPllsLockStatus; SteadyClockNow t0] ++ mid), t.
  split; [ | exact Ht ].
  unfold get_pll_lock_status, _call_api_function, vendor, bind, ret, now.
  rewrite Hst. cbn [fst snd negb]. fold d1. fold t0. fold d2.
  unfold bind in Hloop. rewrite Hloop. cbn [negb].
  rewrite (pll_locked_now_never hw pll Hnever). f_equal.
  rewrite logs_record. subst d2 d1. unfold log.
  cbn [trace gain_ctrl rxPllLoFrequency_Hz txPllLoFrequency_Hz].
  rewrite <- !app_assoc. reflexivity.
Qed.

(** X8: when [tune] is asked to wait for the lock and the PLL of its
    direction never locks, it throws "PLL did not lock", in either
    direction, and only once the clock has passed the deadline: the
    last thing it did is the final lock check, after a clock reading
    that is no earlier than the first reading of the wait plus the
    timeout.  It does not leave the config state, and the config field
    of the direction's PLL holds the new frequency. *)
Theorem tune_without_lock (hw : board) (k : header_constants) (fuel horizon : nat)
    (direction : direction_t) (value : float) (d : ad937x_device) :
  direction <> DX_DIRECTION ->
  api_succeeds hw ->
  let hz := Double.to_unsigned 64 value in
  let pll := match direction with TX_DIRECTION => TX_PLL | _ => RX_PLL end in
  let locked_pll :=
    match direction with
    | TX_DIRECTION => uint8 (TX_SYNTH k)
    | _ => uint8 (RX_SYNTH k)
    end in
  (forall h, exists st out2,
      mykonos hw h MYKONOS_checkPllsLockStatus = (MYKONOS_ERR_OK, (st, out2)) /\
      Z.land (uint8 st) locked_pll <> locked_pll) ->
  let status := fst (snd (mykonos hw (trace d) MYKONOS_getRadioState)) in
  let before_wait :=
    trace d ++
    (Api MYKONOS_getRadioState :: (if radio_on status then [Api MYKONOS_radioOff] else []))
    ++ [Api (MYKONOS_setRfPllFrequency pll hz)] in
  let deadline :=
    steady_clock hw (before_wait ++ [Api MYKONOS_checkPllsLockStatus])
    + milliseconds PLL_LOCK_TIMEOUT_MS in
  (forall h, (horizon <= length h)%nat -> deadline <= steady_clock hw h) ->
  (horizon <= fuel)%nat ->
  let r := tune hw k fuel direction value true d in
  fst r = Throw (runtime_error pll_did_not_lock) /\
  (exists mid t,
      trace (snd r)
      = before_wait ++ mid ++ [SteadyClockNow t; Api MYKONOS_checkPllsLockStatus] /\
      deadline <= t) /\
  (direction = RX_DIRECTION -> rxPllLoFrequency_Hz (snd r) = hz) /\
  (direction = TX_DIRECTION -> txPllLoFrequency_Hz (snd r) = hz).
Proof.
  intros Hd Hok. cbv zeta. intros Hnever Hclock Hfuel. unfold tune.
  destruct direction; [ | | contradiction ].
  all: rewrite (bind_Return _ _ _ _ _ (move_to_config_state_ok hw d Hok));
    rewrite bind_update;
    rewrite (bind_Return _ _ _ _ _ (call_api_ok hw _ _ (Hok _ _)));
    match goal with
    | |- context [log ?e (with_lo_frequency ?p ?z (logs ?evs ?d0))] =>
        set (d3 := log e (with_lo_frequency p z (logs evs d0)));
        assert (trace d3
                = trace d ++
                  (Api MYKONOS_getRadioState ::
                     (if radio_on (fst (snd (mykonos hw (trace d) MYKONOS_getRadioState)))
                      then [Api MYKONOS_radioOff] else []))
                  ++ [Api (MYKONOS_setRfPllFrequency p z)]) as Htr
          by (subst d3; cbn [log with_lo_frequency trace]; rewrite trace_logs;
              rewrite <- app_assoc; reflexivity)
    end;
    match goal with
    | |- context [get_pll_lock_status _ _ ?m true] =>
        destruct (get_pll_lock_status_never hw m horizon d3 fuel Hnever)
          as (mid & t & Hwait & Ht);
        [ rewrite Htr; exact Hclock | exact Hfuel | ]
    end;
    rewrite (bind_Throw _ _ d3 (runtime_error pll_did_not_lock)
               (logs (mid ++ [SteadyClockNow t; Api MYKONOS_checkPllsLockStatus]) d3))
      by (rewrite (bind_Return _ _ _ _ _ Hwait); reflexivity);
    cbn [fst snd]; split; [ reflexivity | ]; split;
    [ exists mid, t; split;
      [ rewrite trace_logs, Htr; rewrite <- !app_assoc; reflexivity
      | rewrite Htr in Ht; exact Ht ]
    | rewrite ?(proj1 (lo_logs _ _)), ?(proj2 (lo_logs _ _)); subst d3;
      cbn [log with_lo_frequency rxPllLoFrequency_Hz txPllLoFrequency_Hz];
      split; intros; try reflexivity; discriminate ].
Qed.

Lemma tune_without_lock_witness :
  (fst (tune (bench_board 3 0 None) bench_constants 8 RX_DIRECTION 915.5e6 true bench_device)
     = Throw (runtime_error pll_did_not_lock) /\
   exists mid t,
     trace (snd (tune (bench_board 3 0 None) bench_constants 8 RX_DIRECTION 915.5e6 true
                   bench_device))
     = [Api MYKONOS_getRadioState; Api MYKONOS_radioOff;
        Api (MYKONOS_setRfPllFrequency RX_PLL 915500000)]
       ++ mid ++ [SteadyClockNow t; Api MYKONOS_checkPllsLockStatus] /\
     milliseconds 400 <= t) /\
  (fst (tune (bench_board 3 0 None) bench_constants 8 TX_DIRECTION 2400e6 true bench_device)
     = Throw (runtime_error pll_did_not_lock) /\
   exists mid t,
     trace (snd (tune (bench_board 3 0 None) bench_constants 8 TX_DIRECTION 2400e6 true
                   bench_device))
     = [Api MYKONOS_getRadioState; Api MYKONOS_radioOff;
        Api (MYKONOS_setRfPllFrequency TX_PLL 2400000000)]
       ++ mid ++ [SteadyClockNow t; Api MYKONOS_checkPllsLockStatus] /\
     milliseconds 400 <= t).
Proof.
  assert (forall m, m = 2 \/ m = 4 ->
            forall h, exists st out2,
              mykonos (bench_board 3 0 None) h MYKONOS_checkPllsLockStatus
                = (MYKONOS_ERR_OK, (st, out2)) /\
              Z.land (uint8 st) m <> m) as Hnever.
  { intros m Hm h. exists 0, 0. split; [ reflexivity | ].
    destruct Hm as [ -> | -> ]; vm_compute; discriminate. }
  assert (forall h, (8 <= length h)%nat ->
            milliseconds 400 <= steady_clock (bench_board 3 0 None) h) as Hclock.
  { intros h Hh. cbn [steady_clock bench_board]. unfold milliseconds. lia. }
  split.
  - destruct (tune_without_lock (bench_board 3 0 None) bench_constants 8 8 RX_DIRECTION
                915.5e6 bench_device ltac:(discriminate)
                (proj1 (bench_board_succeeds 3 0 None)) (Hnever 2 (or_introl eq_refl))
                Hclock (le_n 8))
      as (Hthrow & Hwait & _).
    split; [ exact Hthrow | exact Hwait ].
  - destruct (tune_without_lock (bench_board 3 0 None) bench_constants 8 8 TX_DIRECTION
                2400e6 bench_device ltac:(discriminate)
                (proj1 (bench_board_succeeds 3 0 None)) (Hnever 4 (or_intror eq_refl))
                Hclock (le_n 8))
      as (Hthrow & Hwait & _).
    split; [ exact Hthrow | exact Hwait ].
Defined.

(** ** Gain pins on the hardware *)

Lemma config_read_ok direction chain d chan :
  config_at (gain_ctrl d) direction chain = Some chan ->
  config_read direction chain d = (Return chan, d).
Proof. intros H. unfold config_read. rewrite H. reflexivity. Qed.

(** Applying the pins of an RX channel, all calls succeeding. *)
Lemma apply_gain_pins_rx hw chain d chan :
  api_succeeds hw -> gpio_succeeds hw ->
  config_at (gain_ctrl d) RX_DIRECTION chain = Some chan ->
  _apply_gain_pins hw RX_DIRECTION chain d
    = (Return tt,
       logs (bracketed (fst (snd (mykonos hw (trace d) MYKONOS_getRadioState)))
               [Gpio (match chain with
                      | ONE => MYKONOS_setRx1GainCtrlPin
                      | TWO => MYKONOS_setRx2GainCtrlPin
                      end (inc_step chan) (dec_step chan) (inc_pin chan) (dec_pin chan)
                        (enable chan))]) d).
Proof.
  intros Hok Hgpio Hchan. unfold _apply_gain_pins, bracketed.
  rewrite (bind_Return _ _ _ _ _ (config_read_ok _ _ _ _ Hchan)).
  rewrite bind_ret.
  rewrite (bind_Return _ _ _ _ _ (move_to_config_state_ok hw d Hok)).
  destruct chain; cbv zeta;
    rewrite (bind_Return _ _ _ _ _ (call_gpio_ok hw _ _ (Hgpio _ _)));
    rewrite (restore_from_config_state_ok hw _ _ Hok);
    destruct (radio_on _); reflexivity.
Qed.

(** Applying the pins of a TX channel whose two steps agree. *)
Lemma apply_gain_pins_tx hw chain d chan :
  api_succeeds hw -> gpio_succeeds hw ->
  config_at (gain_ctrl d) TX_DIRECTION chain = Some chan ->
  inc_step chan = dec_step chan ->
  _apply_gain_pins hw TX_DIRECTION chain d
    = (Return tt,
       logs (bracketed (fst (snd (mykonos hw (trace d) MYKONOS_getRadioState)))
               [Gpio (match chain with
                      | ONE => MYKONOS_setTx1AttenCtrlPin (inc_step chan) (inc_pin chan)
                                 (dec_pin chan) (enable chan) 0
                      | TWO => MYKONOS_setTx2AttenCtrlPin (inc_step chan) (inc_pin chan)
                                 (dec_pin chan) (enable chan)
                      end)]) d).
Proof.
  intros Hok Hgpio Hchan Heq. unfold _apply_gain_pins, bracketed.
  rewrite (bind_Return _ _ _ _ _ (config_read_ok _ _ _ _ Hchan)).
  rewrite Heq, Z.eqb_refl, bind_ret.
  rewrite (bind_Return _ _ _ _ _ (move_to_config_state_ok hw d Hok)).
  destruct chain; cbv zeta;
    rewrite (bind_Return _ _ _ _ _ (call_gpio_ok hw _ _ (Hgpio _ _)));
    rewrite (restore_from_config_state_ok hw _ _ Hok);
    destruct (radio_on _); rewrite <- ?Heq; reflexivity.
Qed.

(** X9: on a board whose calls succeed, the step sizes given to
    [set_gain_pin_step_sizes] reach the chip as follows.  For an RX
    chain the vendor setter of that chain gets the converted increment
    and decrement steps, with the pins and the enable flag the store
    held.  For a TX chain whose converted steps agree, the vendor
    setter gets that one step; chain one is always called with
    [useTx1ForTx2] = 0. *)
Theorem gain_pin_steps_reach_hardware (hw : board) (chain : chain_t) (inc dec : float)
    (d : ad937x_device) :
  api_succeeds hw -> gpio_succeeds hw ->
  let status := fst (snd (mykonos hw (trace d) MYKONOS_getRadioState)) in
  (exists old,
      config_at (gain_ctrl d) RX_DIRECTION chain = Some old /\
      fst (set_gain_pin_step_sizes hw RX_DIRECTION chain inc dec d) = Return tt /\
      trace (snd (set_gain_pin_step_sizes hw RX_DIRECTION chain inc dec d))
      = trace d ++
        bracketed status
          [Gpio (match chain with
                 | ONE => MYKONOS_setRx1GainCtrlPin
                 | TWO => MYKONOS_setRx2GainCtrlPin
                 end (Double.to_unsigned 8 (inc / 0.5)%float)
                   (Double.to_unsigned 8 (dec / 0.5)%float)
                   (inc_pin old) (dec_pin old) (enable old))]) /\
  (Double.to_unsigned 8 (inc / 0.05)%float = Double.to_unsigned 8 (dec / 0.05)%float ->
   exists old,
      config_at (gain_ctrl d) TX_DIRECTION chain = Some old /\
      fst (set_gain_pin_step_sizes hw TX_DIRECTION chain inc dec d) = Return tt /\
      trace (snd (set_gain_pin_step_sizes hw TX_DIRECTION chain inc dec d))
      = trace d ++
        bracketed status
          [Gpio (match chain with
                 | ONE => MYKONOS_setTx1AttenCtrlPin
                            (Double.to_unsigned 8 (inc / 0.05)%float)
                            (inc_pin old) (dec_pin old) (enable old) 0
                 | TWO => MYKONOS_setTx2AttenCtrlPin
                            (Double.to_unsigned 8 (inc / 0.05)%float)
                            (inc_pin old) (dec_pin old) (enable old)
                 end)]).
Proof.
  intros Hok Hgpio. cbv zeta. split.
  - destruct (set_gain_pin_step_sizes_RX hw chain inc dec d) as (old & Hold & ->).
    exists old. split; [ exact Hold | ].
    erewrite apply_gain_pins_rx; [ | exact Hok | exact Hgpio | ].
    2: { cbn [with_gain_ctrl gain_ctrl]. apply config_at_put. discriminate. }
    cbn [fst snd]. split; [ reflexivity | ].
    rewrite trace_logs. reflexivity.
  - intros Heq.
    destruct (set_gain_pin_step_sizes_TX hw chain inc dec d) as (old & Hold & ->).
    exists old. split; [ exact Hold | ].
    erewrite apply_gain_pins_tx; [ | exact Hok | exact Hgpio | | ].
    2: { cbn [with_gain_ctrl gain_ctrl]. apply config_at_put. discriminate. }
    2: { cbn [inc_step dec_step with_inc_step with_dec_step]. symmetry. exact Heq. }
    cbn [fst snd]. split; [ reflexivity | ].
    rewrite trace_logs. cbn [with_gain_ctrl trace inc_step inc_pin dec_pin enable
                               with_inc_step with_dec_step].
    rewrite Heq. reflexivity.
Qed.

Lemma gain_pin_steps_reach_hardware_witness :
  api_succeeds (bench_board 3 0 None) /\ gpio_succeeds (bench_board 3 0 None) /\
  Double.to_unsigned 8 (0.1 / 0.05)%float = Double.to_unsigned 8 (0.1 / 0.05)%float /\
  exists old,
    config_at (gain_ctrl bench_device) TX_DIRECTION ONE = Some old /\
    fst (set_gain_pin_step_sizes (bench_board 3 0 None) TX_DIRECTION ONE 0.1 0.1 bench_device)
      = Return tt /\
    trace (snd (set_gain_pin_step_sizes (bench_board 3 0 None) TX_DIRECTION ONE 0.1 0.1
                  bench_device))
    = trace bench_device ++
      bracketed (fst (snd (mykonos (bench_board 3 0 None) (trace bench_device)
                             MYKONOS_getRadioState)))
        [Gpio (MYKONOS_setTx1AttenCtrlPin (Double.to_unsigned 8 (0.1 / 0.05)%float)
                 (inc_pin old) (dec_pin old) (enable old) 0)].
Proof.
  destruct (bench_board_succeeds 3 0 None) as [Ha Hg].
  split; [ exact Ha | ]. split; [ exact Hg | ]. split; [ reflexivity | ].
  exact (proj2 (gain_pin_steps_reach_hardware (bench_board 3 0 None) ONE 0.1 0.1
                  bench_device Ha Hg) eq_refl).
Defined.

(** ** Reading the firmware *)

Lemma firstn_repeat {A} (a : A) (n m : nat) : firstn n (repeat a m) = repeat a (Nat.min n m).
Proof.
  revert m. induction n as [ | n IH ]; intros [ | m ]; cbn [firstn repeat Nat.min];
    try reflexivity. rewrite IH. reflexivity.
Qed.

Lemma read_into_zeros (bytes : list Z) (n : nat) :
  firstn n bytes ++ skipn (length (firstn n bytes)) (repeat 0 n)
  = firstn n (bytes ++ repeat 0 n).
Proof.
  rewrite firstn_app, skipn_repeat, firstn_repeat, length_firstn. f_equal. f_equal. lia.
Qed.

(** X10: when the firmware file opens and reading it raises no stream
    error, [_get_arm_binary] returns exactly [ARM_BINARY_SIZE] bytes,
    whatever the size of the file: the first 98304 bytes of the file,
    padded with zeros when the file is shorter (a longer file is cut
    without notice).  It does not touch the device. *)
Theorem get_arm_binary_fixed_size (hw : board) (d : ad937x_device) (file : firmware_file) :
  firmware hw = Some file ->
  io_error file = false ->
  let size := Z.to_nat ARM_BINARY_SIZE in
  _get_arm_binary hw d = (Return (firstn size (contents file ++ repeat 0 size)), d) /\
  length (firstn size (contents file ++ repeat 0 size)) = size /\
  (length (contents file) = size ->
   firstn size (contents file ++ repeat 0 size) = contents file).
Proof.
  intros Hfw Hio. cbv zeta. unfold _get_arm_binary, ifstream_read. rewrite Hfw, Hio.
  generalize (Z.to_nat ARM_BINARY_SIZE). intros n. cbn [badbit].
  rewrite read_into_zeros. split; [ reflexivity | ]. split.
  - rewrite length_firstn, length_app, repeat_length. lia.
  - intros Hlen. rewrite firstn_app, Hlen, Nat.sub_diag. cbn [firstn].
    rewrite app_nil_r. apply firstn_all2. lia.
Qed.

Lemma get_arm_binary_fixed_size_witness :
  firmware (bench_board 0 15 (Some short_firmware)) = Some short_firmware /\
  io_error short_firmware = false /\
  length (firstn (Z.to_nat ARM_BINARY_SIZE)
            (contents short_firmware ++ repeat 0 (Z.to_nat ARM_BINARY_SIZE)))
    = Z.to_nat ARM_BINARY_SIZE.
Proof.
  split; [ reflexivity | ]. split; [ reflexivity | ].
  exact (proj1 (proj2 (get_arm_binary_fixed_size (bench_board 0 15 (Some short_firmware))
                         bench_device short_firmware eq_refl eq_refl))).
Defined.

(** ** Multichip sync and the start of initialization *)

Lemma testbit_10 (i : Z) : Z.testbit 10 i = true <-> i = 1 \/ i = 3.
Proof.
  assert (i < 0 \/ i = 0 \/ i = 1 \/ i = 2 \/ i = 3 \/ 4 <= i) as H by lia.
  destruct H as [H | [-> | [-> | [-> | [-> | H]]]]].
  - rewrite Z.testbit_neg_r by exact H. split; [ discriminate | lia ].
  - cbn. split; [ discriminate | lia ].
  - cbn. split; [ auto | reflexivity ].
  - cbn. split; [ discriminate | lia ].
  - cbn. split; [ auto | reflexivity ].
  - rewrite Z.bits_above_log2 by (cbn; lia). split; [ discriminate | lia ].
Qed.

Lemma testbit_11 (i : Z) : Z.testbit 11 i = true <-> i = 0 \/ i = 1 \/ i = 3.
Proof.
  assert (i < 0 \/ i = 0 \/ i = 1 \/ i = 2 \/ i = 3 \/ 4 <= i) as H by lia.
  destruct H as [H | [-> | [-> | [-> | [-> | H]]]]].
  - rewrite Z.testbit_neg_r by exact H. split; [ discriminate | lia ].
  - cbn. split; [ auto | reflexivity ].
  - cbn. split; [ auto | reflexivity ].
  - cbn. split; [ discriminate | lia ].
  - cbn. split; [ auto | reflexivity ].
  - rewrite Z.bits_above_log2 by (cbn; lia). split; [ discriminate | lia ].
Qed.

Lemma uint8_testbit_low (x i : Z) : 0 <= i < 8 -> Z.testbit (uint8 x) i = Z.testbit x i.
Proof. intros H. unfold uint8. apply Z.mod_pow2_bits_low. lia. Qed.

Lemma mcs_partial_bits (st : Z) :
  Z.land (uint8 st) 10 = 10 <-> Z.testbit st 1 = true /\ Z.testbit st 3 = true.
Proof.
  rewrite land_eq_all_bits. split.
  - intros H. split.
    + rewrite <- (uint8_testbit_low st 1) by lia. apply H, testbit_10. auto.
    + rewrite <- (uint8_testbit_low st 3) by lia. apply H, testbit_10. auto.
  - intros [H1 H3] i Hi. apply testbit_10 in Hi. destruct Hi as [-> | ->];
      rewrite uint8_testbit_low by lia; assumption.
Qed.

Lemma mcs_full_bits (st : Z) :
  Z.land (uint8 st) 11 = 11 <->
  Z.testbit st 0 = true /\ Z.testbit st 1 = true /\ Z.testbit st 3 = true.
Proof.
  rewrite land_eq_all_bits. split.
  - intros H. repeat split.
    + rewrite <- (uint8_testbit_low st 0) by lia. apply H, testbit_11. auto.
    + rewrite <- (uint8_testbit_low st 1) by lia. apply H, testbit_11. auto.
    + rewrite <- (uint8_testbit_low st 3) by lia. apply H, testbit_11. auto.
  - intros (H0 & H1 & H3) i Hi. apply testbit_11 in Hi.
    destruct Hi as [-> | [-> | ->]]; rewrite uint8_testbit_low by lia; assumption.
Qed.

Lemma verify_multichip_sync_status_run hw d st out2 mcs :
  mykonos hw (trace d) (MYKONOS_enableMultichipSync 0) = (MYKONOS_ERR_OK, (st, out2)) ->
  _verify_multichip_sync_status hw mcs d
  = (if Z.land (uint8 st) (match mcs with FULL => 11 | PARTIAL => 10 end)
        =? match mcs with FULL => 11 | PARTIAL => 10 end
     then Return tt
     else Throw (runtime_error
                   (multichip_sync_failed (uint8 st)
                      (match mcs with FULL => 11 | PARTIAL => 10 end))),
     log (Api (MYKONOS_enableMultichipSync 0)) d).
Proof.
  intros Hq.
  assert (get_multichip_sync_status hw d
          = (Return (uint8 st), log (Api (MYKONOS_enableMultichipSync 0)) d)) as Hget.
  { unfold get_multichip_sync_status.
    rewrite (bind_Return _ _ _ (st, out2) (log (Api (MYKONOS_enableMultichipSync 0)) d));
      [ reflexivity | ].
    rewrite call_api_ok; rewrite Hq; reflexivity. }
  unfold _verify_multichip_sync_status.
  rewrite (bind_Return _ _ _ _ _ Hget).
  destruct mcs; cbv zeta;
    match goal with |- context [Z.eqb ?a ?b] => destruct (Z.eqb a b) end;
    reflexivity.
Qed.

(** X11: when the sync-status query answers with a status byte,
    [_verify_multichip_sync_status] passes for a partial sync exactly
    when bits 1 and 3 of the status are set, and for a full sync
    exactly when bits 0, 1 and 3 are set; other bits are ignored.
    When the partial check fails, [finish_initialization] throws
    "multichip sync failed" with the status read, and the status query
    is the only call it made. *)
Theorem multichip_sync_check (hw : board) (k : header_constants) (fuel : nat)
    (d : ad937x_device) (st out2 : Z) :
  mykonos hw (trace d) (MYKONOS_enableMultichipSync 0) = (MYKONOS_ERR_OK, (st, out2)) ->
  let d1 := log (Api (MYKONOS_enableMultichipSync 0)) d in
  (_verify_multichip_sync_status hw PARTIAL d = (Return tt, d1) <->
   Z.testbit st 1 = true /\ Z.testbit st 3 = true) /\
  (_verify_multichip_sync_status hw FULL d = (Return tt, d1) <->
   Z.testbit st 0 = true /\ Z.testbit st 1 = true /\ Z.testbit st 3 = true) /\
  (~ (Z.testbit st 1 = true /\ Z.testbit st 3 = true) ->
   finish_initialization hw k fuel d
     = (Throw (runtime_error (multichip_sync_failed (uint8 st) 10)), d1)).
Proof.
  intros Hq. cbv zeta.
  pose proof (fun mcs => verify_multichip_sync_status_run hw d st out2 mcs Hq) as Hver.
  split; [ | split ].
  - rewrite Hver, <- mcs_partial_bits.
    destruct (Z.eqb_spec (Z.land (uint8 st) 10) 10); split; intros H;
      try reflexivity; try assumption; try discriminate; contradiction.
  - rewrite Hver, <- mcs_full_bits.
    destruct (Z.eqb_spec (Z.land (uint8 st) 11) 11); split; intros H;
      try reflexivity; try assumption; try discriminate; contradiction.
  - intros Hbits. rewrite <- mcs_partial_bits in Hbits.
    unfold finish_initialization. apply bind_Throw. rewrite Hver.
    destruct (Z.eqb_spec (Z.land (uint8 st) 10) 10); [ contradiction | reflexivity ].
Qed.

Lemma multichip_sync_check_witness :
  mykonos (bench_board 0 15 None) (trace bench_device) (MYKONOS_enableMultichipSync 0)
    = (MYKONOS_ERR_OK, (10, 0)) /\
  _verify_multichip_sync_status (bench_board 0 15 None) PARTIAL bench_device
    = (Return tt, log (Api (MYKONOS_enableMultichipSync 0)) bench_device).
Proof.
  assert (mykonos (bench_board 0 15 None) (trace bench_device) (MYKONOS_enableMultichipSync 0)
          = (MYKONOS_ERR_OK, (10, 0))) as H by reflexivity.
  split; [ exact H | ].
  apply (proj1 (multichip_sync_check (bench_board 0 15 None) bench_constants 0
                  bench_device 10 0 H)).
  split; reflexivity.
Defined.

(** X12: when the multichip sync check and [MYKONOS_initArm] succeed
    but the firmware file cannot be opened, or reading it raises a
    stream error, [finish_initialization] throws the matching error
    after the ARM has been initialized; the loader is never called. *)
Theorem finish_initialization_unreadable_firmware (hw : board) (k : header_constants)
    (fuel : nat) (d : ad937x_device) (st out2 : Z) :
  mykonos hw (trace d) (MYKONOS_enableMultichipSync 0) = (MYKONOS_ERR_OK, (st, out2)) ->
  Z.testbit st 1 = true /\ Z.testbit st 3 = true ->
  fst (mykonos hw (trace d ++ [Api (MYKONOS_enableMultichipSync 0)]) MYKONOS_initArm)
    = MYKONOS_ERR_OK ->
  (firmware hw = None \/ exists file, firmware hw = Some file /\ io_error file = true) ->
  finish_initialization hw k fuel d
    = (Throw (runtime_error (match firmware hw with
                             | None => could_not_open_arm_binary
                             | Some _ => error_reading_arm_binary
                             end)),
       logs [Api (MYKONOS_enableMultichipSync 0); Api MYKONOS_initArm] d).
Proof.
  intros Hq Hbits Harm Hfw. unfold finish_initialization.
  rewrite (bind_Return _ _ _ tt (log (Api (MYKONOS_enableMultichipSync 0)) d)).
  2: { rewrite (verify_multichip_sync_status_run hw d st out2 PARTIAL Hq).
       apply mcs_partial_bits in Hbits. rewrite Hbits. reflexivity. }
  rewrite (bind_Return _ _ _ _ _
             (call_api_ok hw MYKONOS_initArm (log (Api (MYKONOS_enableMultichipSync 0)) d)
                Harm)).
  apply bind_Throw. unfold _get_arm_binary, ifstream_read.
  destruct Hfw as [-> | (file & -> & ->)]; reflexivity.
Qed.

Lemma finish_initialization_unreadable_firmware_witness :
  finish_initialization (bench_board 0 15 None) bench_constants 0 bench_device
    = (Throw (runtime_error could_not_open_arm_binary),
       logs [Api (MYKONOS_enableMultichipSync 0); Api MYKONOS_initArm] bench_device).
Proof.
  exact (finish_initialization_unreadable_firmware (bench_board 0 15 None) bench_constants 0
           bench_device 10 0 eq_refl (conj eq_refl eq_refl) eq_refl (or_introl eq_refl)).
Defined.

(** X13: on a board whose calls succeed, [begin_initialization] has
    three outcomes, decided by what the chip reports: a product id
    other than 3 is refused right after it was read; with the right
    id, missing CLK_SYNTH lock bits are refused after one lock query
    (there is no waiting); otherwise multichip sync is armed and the
    call returns. *)
Theorem begin_initialization_outcomes (hw : board) (k : header_constants) (fuel : nat)
    (d : ad937x_device) :
  api_succeeds hw ->
  let id := uint8 (fst (snd (mykonos hw (trace d ++ [Api MYKONOS_initialize])
                              MYKONOS_getProductId))) in
  let lock := uint8 (fst (snd (mykonos hw
                                 (trace d ++ [Api MYKONOS_initialize;
                                              Api MYKONOS_getProductId])
                                 MYKONOS_checkPllsLockStatus))) in
  let clk := uint8 (CLK_SYNTH k) in
  begin_initialization hw k fuel d
  = if negb (id =? AD9371_PRODUCT_ID) then
      (Throw (runtime_error (product_id_mismatch id)),
       logs [Api MYKONOS_initialize; Api MYKONOS_getProductId] d)
    else if negb (Z.land lock clk =? clk) then
      (Throw (runtime_error clk_synth_failed_to_lock),
       logs [Api MYKONOS_initialize; Api MYKONOS_getProductId;
             Api MYKONOS_checkPllsLockStatus] d)
    else
      (Return tt,
       logs [Api MYKONOS_initialize; Api MYKONOS_getProductId;
             Api MYKONOS_checkPllsLockStatus; Api (MYKONOS_enableMultichipSync 1)] d).
Proof.
  intros Hok. cbv zeta. unfold begin_initialization.
  rewrite (bind_Return _ _ _ _ _ (call_api_ok hw _ _ (Hok _ _))).
  set (d1 := log (Api MYKONOS_initialize) d).
  assert (trace d1 = trace d ++ [Api MYKONOS_initialize]) as Htr1 by reflexivity.
  rewrite <- Htr1.
  assert (_verify_product_id hw d1
          = (if negb (uint8 (fst (snd (mykonos hw (trace d1) MYKONOS_getProductId)))
                      =? AD9371_PRODUCT_ID)
             then Throw (runtime_error
                           (product_id_mismatch
                              (uint8 (fst (snd (mykonos hw (trace d1)
                                                  MYKONOS_getProductId))))))
             else Return tt,
             log (Api MYKONOS_getProductId) d1)) as Hid.
  { unfold _verify_product_id, get_product_id.
    rewrite (bind_Return _ _ _ _ _
               (bind_Return _ _ _ _ _ (call_api_ok hw _ d1 (Hok _ _)))).
    unfold ret at 1. destruct (negb _); reflexivity. }
  destruct (negb (_ =? AD9371_PRODUCT_ID)).
  { apply bind_Throw. exact Hid. }
  rewrite (bind_Return _ _ _ _ _ Hid).
  set (d2 := log (Api MYKONOS_getProductId) d1).
  assert (trace d2 = trace d ++ [Api MYKONOS_initialize; Api MYKONOS_getProductId]) as Htr2.
  { subst d2 d1. cbn [log trace]. rewrite <- app_assoc. reflexivity. }
  rewrite <- Htr2.
  assert (get_pll_lock_status hw fuel (uint8 (CLK_SYNTH k)) false d2
          = (Return (Z.land (uint8 (fst (snd (mykonos hw (trace d2)
                                                MYKONOS_checkPllsLockStatus))))
                       (uint8 (CLK_SYNTH k)) =? uint8 (CLK_SYNTH k)),
             log (Api MYKONOS_checkPllsLockStatus) d2)) as Hlock.
  { unfold get_pll_lock_status.
    rewrite (bind_Return _ _ _ _ _ (call_api_ok hw _ d2 (Hok _ _))). reflexivity. }
  rewrite (bind_Return _ _ _ _ _ Hlock).
  destruct (negb (Z.land _ _ =? _)).
  { reflexivity. }
  rewrite bind_ret.
  rewrite (bind_Return _ _ _ _ _ (call_api_ok hw _ _ (Hok _ _))). reflexivity.
Qed.

Lemma begin_initialization_outcomes_witness :
  api_succeeds (bench_board 0 1 None) /\
  begin_initialization (bench_board 0 1 None) bench_constants 0 bench_device
    = (Return tt,
       logs [Api MYKONOS_initialize; Api MYKONOS_getProductId;
             Api MYKONOS_checkPllsLockStatus; Api (MYKONOS_enableMultichipSync 1)]
         bench_device).
Proof.
  pose proof (proj1 (bench_board_succeeds 0 1 None)) as H.
  split; [ exact H | ].
  exact (begin_initialization_outcomes (bench_board 0 1 None) bench_constants 0
           bench_device H).
Defined.

(** ** What the member functions leave alone *)

Lemma keeps_store_now hw : keeps_store (now hw).
Proof. intro d. reflexivity. Qed.

Lemma keeps_store_pll_locked_now hw pll : keeps_store (pll_locked_now hw pll).
Proof. unfold pll_locked_now. auto with store. Qed.

#[local] Hint Resolve keeps_store_now keeps_store_pll_locked_now : store.

Lemma keeps_store_lock_wait_loop hw fuel pll lock_time locked :
  keeps_store (lock_wait_loop hw fuel pll lock_time locked).
Proof.
  revert locked. induction fuel as [ | fuel IH ]; intros locked; cbn [lock_wait_loop];
    destruct locked; auto with store.
  apply keeps_store_bind; [ auto with store | intro t ].
  destruct (lock_time >? t); [ intro d; reflexivity | auto with store ].
Qed.

#[local] Hint Resolve keeps_store_lock_wait_loop : store.

Lemma keeps_store_get_pll_lock_status hw fuel pll wait :
  keeps_store (get_pll_lock_status hw fuel pll wait).
Proof. unfold get_pll_lock_status. auto 10 with store. Qed.

Lemma keeps_store_get_freq hw direction : keeps_store (get_freq hw direction).
Proof. unfold get_freq. auto 8 with store. Qed.

Lemma keeps_store_with_lo pll hz :
  keeps_store (fun d => (Return tt, with_lo_frequency pll hz d)).
Proof. intro d. reflexivity. Qed.

#[local] Hint Resolve keeps_store_get_pll_lock_status keeps_store_get_freq
  keeps_store_with_lo keeps_store_apply_gain_pins : store.

Lemma keeps_store_tune hw k fuel direction value wait :
  keeps_store (tune hw k fuel direction value wait).
Proof. unfold tune. destruct direction; auto 14 with store. Qed.

Lemma keeps_store_set_gain hw direction chain value :
  keeps_store (set_gain hw direction chain value).
Proof. unfold set_gain. destruct direction, chain; auto 14 with store. Qed.

Lemma keeps_store_get_gain hw direction chain : keeps_store (get_gain hw direction chain).
Proof. unfold get_gain. destruct direction, chain; auto 8 with store. Qed.

Lemma keeps_store_get_arm_binary hw : keeps_store (_get_arm_binary hw).
Proof.
  intro d. unfold _get_arm_binary.
  destruct (firmware hw) as [file | ]; [ | reflexivity ].
  destruct (ifstream_read _ _ _) as [binary state]. destruct (badbit state); reflexivity.
Qed.

Lemma keeps_store_verify_mcs hw mcs : keeps_store (_verify_multichip_sync_status hw mcs).
Proof.
  unfold _verify_multichip_sync_status, get_multichip_sync_status. auto 10 with store.
Qed.

Lemma keeps_store_verify_product_id hw : keeps_store (_verify_product_id hw).
Proof. unfold _verify_product_id, get_product_id. auto 10 with store. Qed.

#[local] Hint Resolve keeps_store_tune keeps_store_set_gain keeps_store_get_gain
  keeps_store_get_arm_binary keeps_store_verify_mcs keeps_store_verify_product_id : store.

Lemma keeps_store_initialize_rf hw k fuel : keeps_store (_initialize_rf hw k fuel).
Proof. unfold _initialize_rf. auto 60 with store. Qed.

#[local] Hint Resolve keeps_store_initialize_rf : store.

(** X14: only the two gain-pin setters write the gain-pin store.
    Tuning, setting and reading the gain, the lock query, and both
    halves of the initialization leave every channel of the store as
    it was, whether they return or throw. *)
Theorem only_setters_write_store (hw : board) (k : header_constants) (fuel : nat)
    (direction : direction_t) (chain : chain_t) (value : float) (pll : Z) (wait : bool) :
  keeps_store (tune hw k fuel direction value wait) /\
  keeps_store (set_gain hw direction chain value) /\
  keeps_store (get_gain hw direction chain) /\
  keeps_store (get_freq hw direction) /\
  keeps_store (get_pll_lock_status hw fuel pll wait) /\
  keeps_store (_apply_gain_pins hw direction chain) /\
  keeps_store (begin_initialization hw k fuel) /\
  keeps_store (finish_initialization hw k fuel).
Proof.
  repeat split; auto with store.
  - unfold begin_initialization. auto 20 with store.
  - unfold finish_initialization. auto 20 with store.
Qed.

Create HintDb field discriminated.

Section KeepsField.

Context {B : Type} (field : ad937x_device -> B).

Hypothesis field_log : forall e d, field (log e d) = field d.

Lemma keeps_field_ret {A} (a : A) : keeps_field field (ret a).
Proof. intro d. reflexivity. Qed.

Lemma keeps_field_throw {A} (e : exn) : keeps_field field (@throw A e).
Proof. intro d. reflexivity. Qed.

Lemma keeps_field_bind {A C} (m : M A) (f : A -> M C) :
  keeps_field field m -> (forall a, keeps_field field (f a)) ->
  keeps_field field (bind m f).
Proof.
  intros Hm Hf d. unfold bind. specialize (Hm d).
  destruct (m d) as [[a | e | ] d1]; cbn [snd] in *; [ | exact Hm | exact Hm ].
  rewrite Hf. exact Hm.
Qed.

Lemma keeps_field_vendor hw c : keeps_field field (vendor hw c).
Proof. intro d. apply field_log. Qed.

Lemma keeps_field_vendor_gpio hw c : keeps_field field (vendor_gpio hw c).
Proof. intro d. apply field_log. Qed.

Lemma keeps_field_now hw : keeps_field field (now hw).
Proof. intro d. apply field_log. Qed.

Lemma keeps_field_config_read direction chain :
  keeps_field field (config_read direction chain).
Proof. intro d. unfold config_read. destruct (config_at _ _ _); reflexivity. Qed.

#[local] Hint Resolve keeps_field_ret keeps_field_throw keeps_field_vendor keeps_field_vendor_gpio
  keeps_field_now keeps_field_config_read : field.
#[local] Hint Extern 2 (keeps_field _ (bind _ _)) => apply keeps_field_bind; [ | intro ] : field.
#[local] Hint Extern 3 (keeps_field _ (match ?x with _ => _ end)) => destruct x : field.
#[local] Hint Extern 3 (keeps_field _ (if ?x then _ else _)) => destruct x : field.

Lemma keeps_field_call_api hw c : keeps_field field (_call_api_function hw c).
Proof. unfold _call_api_function. auto with field. Qed.

Lemma keeps_field_call_gpio hw c : keeps_field field (_call_gpio_api_function hw c).
Proof. unfold _call_gpio_api_function. auto with field. Qed.

#[local] Hint Resolve keeps_field_call_api keeps_field_call_gpio : field.

Lemma keeps_field_move hw : keeps_field field (_move_to_config_state hw).
Proof. unfold _move_to_config_state, stop_radio. auto 8 with field. Qed.

Lemma keeps_field_restore hw state : keeps_field field (_restore_from_config_state hw state).
Proof. unfold _restore_from_config_state, start_radio. auto 8 with field. Qed.

Lemma keeps_field_pll_locked_now hw pll : keeps_field field (pll_locked_now hw pll).
Proof. unfold pll_locked_now. auto with field. Qed.

#[local] Hint Resolve keeps_field_move keeps_field_restore keeps_field_pll_locked_now : field.

Lemma keeps_field_lock_wait_loop hw fuel pll lock_time locked :
  keeps_field field (lock_wait_loop hw fuel pll lock_time locked).
Proof.
  revert locked. induction fuel as [ | fuel IH ]; intros locked; cbn [lock_wait_loop];
    destruct locked; auto with field.
  apply keeps_field_bind; [ auto with field | intro t ].
  destruct (lock_time >? t); [ intro d; reflexivity | auto with field ].
Qed.

#[local] Hint Resolve keeps_field_lock_wait_loop : field.

Lemma keeps_field_get_pll_lock_status hw fuel pll wait :
  keeps_field field (get_pll_lock_status hw fuel pll wait).
Proof. unfold get_pll_lock_status. auto 10 with field. Qed.

Lemma keeps_field_get_freq hw direction : keeps_field field (get_freq hw direction).
Proof. unfold get_freq. auto 8 with field. Qed.

Lemma keeps_field_get_gain hw direction chain :
  keeps_field field (get_gain hw direction chain).
Proof. unfold get_gain. destruct direction, chain; auto 8 with field. Qed.

Lemma keeps_field_set_gain hw direction chain value :
  keeps_field field (set_gain hw direction chain value).
Proof. unfold set_gain. destruct direction, chain; auto 14 with field. Qed.

Lemma keeps_field_apply_gain_pins hw direction chain :
  keeps_field field (_apply_gain_pins hw direction chain).
Proof. unfold _apply_gain_pins. auto 12 with field. Qed.

Lemma keeps_field_verify_product_id hw : keeps_field field (_verify_product_id hw).
Proof. unfold _verify_product_id, get_product_id. auto 10 with field. Qed.

#[local] Hint Resolve keeps_field_get_pll_lock_status keeps_field_get_freq keeps_field_get_gain
  keeps_field_set_gain keeps_field_apply_gain_pins keeps_field_verify_product_id : field.

Lemma keeps_field_begin_initialization hw k fuel :
  keeps_field field (begin_initialization hw k fuel).
Proof. unfold begin_initialization. auto 20 with field. Qed.

Section NotTheStore.

Hypothesis field_store : forall c d, field (with_gain_ctrl c d) = field d.

Lemma keeps_field_config_modify direction chain f :
  keeps_field field (config_modify direction chain f).
Proof.
  intro d. unfold config_modify. destruct (config_at _ _ _); [ apply field_store | ].
  reflexivity.
Qed.

#[local] Hint Resolve keeps_field_config_modify : field.

Lemma keeps_field_set_gain_pin_step_sizes hw direction chain inc dec :
  keeps_field field (set_gain_pin_step_sizes hw direction chain inc dec).
Proof. unfold set_gain_pin_step_sizes. destruct direction; auto 10 with field. Qed.

Lemma keeps_field_set_enable_gain_pins hw direction chain en :
  keeps_field field (set_enable_gain_pins hw direction chain en).
Proof. unfold set_enable_gain_pins. auto 10 with field. Qed.

End NotTheStore.

(** [tune] keeps a field that the frequency write of its PLL does not
    touch. *)
Lemma keeps_field_tune hw k fuel direction value wait :
  (forall hz d,
      field (with_lo_frequency
               (match direction with TX_DIRECTION => TX_PLL | _ => RX_PLL end) hz d)
      = field d) ->
  keeps_field field (tune hw k fuel direction value wait).
Proof.
  intros Hlo. unfold tune.
  assert (forall hz,
             keeps_field field
               (fun d => (Return tt,
                          with_lo_frequency
                            (match direction with TX_DIRECTION => TX_PLL | _ => RX_PLL end)
                            hz d))) as Hw
    by (intros hz d; apply Hlo).
  destruct direction; cbn [fst snd] in *; auto using keeps_field_throw;
    (apply keeps_field_bind; [ auto with field | intro state ];
     apply keeps_field_bind; [ apply Hw | intros [] ];
     auto 14 with field).
Qed.

End KeepsField.

(** X15: the LO frequency fields of the device object are written by
    [tune] only, and [tune] for one direction leaves the field of the
    other direction alone.  Setting the gain, the lock query, the
    gain-pin setters and [begin_initialization] leave both fields as
    they were, whether they return or throw. *)
Theorem only_tune_writes_lo_frequency (hw : board) (k : header_constants) (fuel : nat)
    (direction : direction_t) (chain : chain_t) (value inc dec : float) (pll : Z)
    (wait en : bool) :
  keeps_field txPllLoFrequency_Hz (tune hw k fuel RX_DIRECTION value wait) /\
  keeps_field rxPllLoFrequency_Hz (tune hw k fuel TX_DIRECTION value wait) /\
  keeps_field rxPllLoFrequency_Hz (set_gain hw direction chain value) /\
  keeps_field txPllLoFrequency_Hz (set_gain hw direction chain value) /\
  keeps_field rxPllLoFrequency_Hz (get_pll_lock_status hw fuel pll wait) /\
  keeps_field txPllLoFrequency_Hz (get_pll_lock_status hw fuel pll wait) /\
  keeps_field rxPllLoFrequency_Hz (set_gain_pin_step_sizes hw direction chain inc dec) /\
  keeps_field txPllLoFrequency_Hz (set_gain_pin_step_sizes hw direction chain inc dec) /\
  keeps_field rxPllLoFrequency_Hz (set_enable_gain_pins hw direction chain en) /\
  keeps_field txPllLoFrequency_Hz (set_enable_gain_pins hw direction chain en) /\
  keeps_field rxPllLoFrequency_Hz (begin_initialization hw k fuel) /\
  keeps_field txPllLoFrequency_Hz (begin_initialization hw k fuel).
Proof.
  assert (forall e d, rxPllLoFrequency_Hz (log e d) = rxPllLoFrequency_Hz d) as Hrx
    by reflexivity.
  assert (forall e d, txPllLoFrequency_Hz (log e d) = txPllLoFrequency_Hz d) as Htx
    by reflexivity.
  repeat split.
  - apply keeps_field_tune; [ exact Htx | reflexivity ].
  - apply keeps_field_tune; [ exact Hrx | reflexivity ].
  - apply keeps_field_set_gain, Hrx.
  - apply keeps_field_set_gain, Htx.
  - apply keeps_field_get_pll_lock_status, Hrx.
  - apply keeps_field_get_pll_lock_status, Htx.
  - apply keeps_field_set_gain_pin_step_sizes; [ exact Hrx | reflexivity ].
  - apply keeps_field_set_gain_pin_step_sizes; [ exact Htx | reflexivity ].
  - apply keeps_field_set_enable_gain_pins; [ exact Hrx | reflexivity ].
  - apply keeps_field_set_enable_gain_pins; [ exact Htx | reflexivity ].
  - apply keeps_field_begin_initialization, Hrx.
  - apply keeps_field_begin_initialization, Htx.
Qed.

(** ** What a completed initialization guarantees *)

Ltac peel H :=
  apply bind_Return_inv in H;
  let a := fresh "a" in
  let d := fresh "d" in
  destruct H as (a & d & _ & H); cbv beta in H.

(** X16: [_initialize_rf] returns only after the calibration wait
    reported neither an error flag nor an error code, and then the
    last three calls it made are, in this order, running the init
    calibrations with the [INIT_CALS] mask, waiting for them with the
    10 s timeout, and enabling the (empty) set of tracking
    calibrations. *)
Theorem initialize_rf_returns (hw : board) (k : header_constants) (fuel : nat)
    (d d' : ad937x_device) :
  _initialize_rf hw k fuel d = (Return tt, d') ->
  exists h,
    trace d' = h ++ [Api (MYKONOS_runInitCals (uint32 (INIT_CALS k)));
                     Api (MYKONOS_waitInitCals INIT_CAL_TIMEOUT_MS);
                     Api (MYKONOS_enableTrackingCals 0)] /\
    let out := snd (mykonos hw (h ++ [Api (MYKONOS_runInitCals (uint32 (INIT_CALS k)))])
                      (MYKONOS_waitInitCals INIT_CAL_TIMEOUT_MS)) in
    uint8 (fst out) = 0 /\ uint8 (snd out) = 0.
Proof.
  intros H. unfold _initialize_rf in H.
  do 13 peel H.
  apply bind_Return_inv in H. destruct H as (o1 & dr & Hrun & H). cbv beta in H.
  apply bind_Return_inv in H. destruct H as (out & dw & Hwait & H). cbv beta zeta in H.
  apply bind_Return_inv in H. destruct H as ([] & dc & Hcheck & H). cbv beta in H.
  apply bind_Return_inv in H. destruct H as (o4 & dt & Htrack & H). cbv beta in H.
  unfold ret in H. inversion H; subst dt; clear H.
  apply call_api_logs in Hrun. apply call_api_Return in Hwait. destruct Hwait as [Hout ->].
  apply call_api_logs in Htrack.
  destruct (negb (uint8 (fst out) =? 0) || negb (uint8 (snd out) =? 0)) eqn:Hbad;
    [ discriminate Hcheck | ].
  unfold ret in Hcheck. inversion Hcheck; subst dc; clear Hcheck.
  apply orb_false_iff in Hbad. destruct Hbad as [Hflag Hcode].
  apply negb_false_iff, Z.eqb_eq in Hflag. apply negb_false_iff, Z.eqb_eq in Hcode.
  match type of Hrun with
  | dr = log _ ?dx => exists (trace dx)
  end.
  subst d' dr. cbn [log trace]. split.
  - rewrite <- !app_assoc. reflexivity.
  - cbv zeta. rewrite Hout in Hflag, Hcode. cbn [log trace] in Hflag, Hcode.
    split; assumption.
Qed.

Lemma initialize_rf_returns_witness :
  exists h,
    trace (snd (_initialize_rf (bench_board 0 15 None) bench_constants 1 bench_device))
    = h ++ [Api (MYKONOS_runInitCals (uint32 (INIT_CALS bench_constants)));
            Api (MYKONOS_waitInitCals INIT_CAL_TIMEOUT_MS);
            Api (MYKONOS_enableTrackingCals 0)] /\
    let out := snd (mykonos (bench_board 0 15 None)
                      (h ++ [Api (MYKONOS_runInitCals (uint32 (INIT_CALS bench_constants)))])
                      (MYKONOS_waitInitCals INIT_CAL_TIMEOUT_MS)) in
    uint8 (fst out) = 0 /\ uint8 (snd out) = 0.
Proof.
  apply (initialize_rf_returns (bench_board 0 15 None) bench_constants 1 bench_device).
  vm_compute. reflexivity.
Defined.

Lemma arm_binary_length (bytes : list Z) :
  Z.of_nat (length (firstn (Z.to_nat ARM_BINARY_SIZE)
                      (bytes ++ repeat 0 (Z.to_nat ARM_BINARY_SIZE)))) = ARM_BINARY_SIZE.
Proof.
  assert (forall n, length (firstn n (bytes ++ repeat 0 n)) = n) as H.
  { intros n. rewrite length_firstn, length_app, repeat_length. lia. }
  rewrite H. apply Z2Nat.id. discriminate.
Qed.

(** X17: [finish_initialization] returns only if the multichip sync
    status had bits 1 and 3 set and the firmware file could be opened
    and read without a stream error.  It is then the RF initialization
    run after exactly three calls: the sync-status query, the ARM
    initialization, and the loader, which is given a buffer of exactly
    98304 bytes: the start of the file, zero-padded if short. *)
Theorem finish_initialization_returns (hw : board) (k : header_constants) (fuel : nat)
    (d d' : ad937x_device) :
  finish_initialization hw k fuel d = (Return tt, d') ->
  let st := fst (snd (mykonos hw (trace d) (MYKONOS_enableMultichipSync 0))) in
  let size := Z.to_nat ARM_BINARY_SIZE in
  Z.testbit st 1 = true /\ Z.testbit st 3 = true /\
  exists file,
    firmware hw = Some file /\ io_error file = false /\
    _initialize_rf hw k fuel
      (logs [Api (MYKONOS_enableMultichipSync 0); Api MYKONOS_initArm;
             Api (MYKONOS_loadArmFromBinary
                    (firstn size (contents file ++ repeat 0 size)) ARM_BINARY_SIZE)] d)
    = (Return tt, d').
Proof.
  intros H. cbv zeta. unfold finish_initialization in H.
  apply bind_Return_inv in H. destruct H as ([] & d1 & Hver & H). cbv beta in H.
  unfold _verify_multichip_sync_status in Hver. cbv zeta in Hver.
  apply bind_Return_inv in Hver. destruct Hver as (mcs & dm & Hget & Hif).
  unfold get_multichip_sync_status in Hget.
  apply bind_Return_inv in Hget. destruct Hget as (out & dq & Hcall & Hret).
  apply call_api_Return in Hcall. destruct Hcall as [-> ->].
  unfold ret in Hret. inversion Hret; subst mcs dm; clear Hret.
  destruct (Z.eqb_spec
              (Z.land (uint8 (fst (snd (mykonos hw (trace d)
                                          (MYKONOS_enableMultichipSync 0))))) 10) 10)
    as [Hland | Hland]; [ | discriminate Hif ].
  cbn [negb] in Hif. unfold ret in Hif. inversion Hif; subst d1; clear Hif.
  apply mcs_partial_bits in Hland. destruct Hland as [Hb1 Hb3].
  split; [ exact Hb1 | ]. split; [ exact Hb3 | ].
  apply bind_Return_inv in H. destruct H as (o2 & d2 & Harm & H). cbv beta in H.
  apply call_api_logs in Harm. subst d2.
  apply bind_Return_inv in H. destruct H as (binary & d3 & Hbin & H). cbv beta in H.
  unfold _get_arm_binary, ifstream_read in Hbin.
  remember (Z.to_nat ARM_BINARY_SIZE) as size eqn:Hsize.
  destruct (firmware hw) as [file | ] eqn:Hfw; [ | discriminate Hbin ].
  destruct (io_error file) eqn:Hio; [ discriminate Hbin | ].
  cbn [badbit] in Hbin. unfold ret in Hbin.
  injection Hbin as Hbinary Hd3. subst binary d3.
  exists file. split; [ reflexivity | ]. split; [ exact Hio | ].
  apply bind_Return_inv in H. destruct H as (o3 & d4 & Hload & H). cbv beta in H.
  apply call_api_logs in Hload. subst d4.
  rewrite read_into_zeros in H. subst size. rewrite arm_binary_length in H. exact H.
Qed.

Lemma finish_initialization_bench_returns :
  fst (finish_initialization (bench_board 0 15 (Some short_firmware)) bench_constants 1
         bench_device) = Return tt.
Proof.
  unfold finish_initialization.
  rewrite (bind_Return _ _ _ tt (log (Api (MYKONOS_enableMultichipSync 0)) bench_device))
    by reflexivity.
  rewrite (bind_Return _ _ _ (0, 0)
             (log (Api MYKONOS_initArm)
                (log (Api (MYKONOS_enableMultichipSync 0)) bench_device)))
    by reflexivity.
  rewrite (bind_Return _ _ _ _ _
             (get_arm_binary_short (bench_board 0 15 (Some short_firmware)) _ [1; 2; 3]
                eq_refl eq_refl)).
  generalize ([1; 2; 3] ++ repeat 0 (Z.to_nat ARM_BINARY_SIZE - length [1; 2; 3])).
  intros binary. generalize (Z.of_nat (length binary)). intros count.
  vm_compute. reflexivity.
Qed.

Lemma finish_initialization_returns_witness :
  Z.testbit (fst (snd (mykonos (bench_board 0 15 (Some short_firmware)) (trace bench_device)
                         (MYKONOS_enableMultichipSync 0)))) 1 = true /\
  Z.testbit (fst (snd (mykonos (bench_board 0 15 (Some short_firmware)) (trace bench_device)
                         (MYKONOS_enableMultichipSync 0)))) 3 = true /\
  exists file,
    firmware (bench_board 0 15 (Some short_firmware)) = Some file /\
    io_error file = false /\
    _initialize_rf (bench_board 0 15 (Some short_firmware)) bench_constants 1
      (logs [Api (MYKONOS_enableMultichipSync 0); Api MYKONOS_initArm;
             Api (MYKONOS_loadArmFromBinary
                    (firstn (Z.to_nat ARM_BINARY_SIZE)
                       (contents file ++ repeat 0 (Z.to_nat ARM_BINARY_SIZE)))
                    ARM_BINARY_SIZE)] bench_device)
    = (Return tt,
       snd (finish_initialization (bench_board 0 15 (Some short_firmware)) bench_constants 1
              bench_device)).
Proof.
  apply (finish_initialization_returns (bench_board 0 15 (Some short_firmware))
           bench_constants 1 bench_device).
  pose proof finish_initialization_bench_returns as H.
  destruct (finish_initialization (bench_board 0 15 (Some short_firmware)) bench_constants 1
              bench_device) as [o dd].
  cbn [fst snd] in *. rewrite H. reflexivity.
Defined.

(** ** Reading the gain back *)

Lemma rx_decode_table :
  forallb (fun n => Leibniz.eqb (_convert_rx_gain_from_mykonos (195 + Z.of_nat n))
                      (rx_half_step (Z.of_nat n))
                    && in_rx_gain_range (rx_half_step (Z.of_nat n)))
          (seq 0 61) = true.
Proof. vm_compute. reflexivity. Qed.

Lemma rx_decode_on_grid (c : Z) :
  195 <= c <= 255 ->
  _convert_rx_gain_from_mykonos c = rx_half_step (c - 195) /\
  in_rx_gain_range (rx_half_step (c - 195)) = true.
Proof.
  intros Hc. pose proof rx_decode_table as H. rewrite forallb_forall in H.
  specialize (H (Z.to_nat (c - 195))). rewrite Z2Nat.id in H by lia.
  replace (195 + (c - 195)) with c in H by lia.
  assert (In (Z.to_nat (c - 195)) (seq 0 61)) as Hin by (apply in_seq; lia).
  apply H in Hin. apply andb_true_iff in Hin. destruct Hin as [Heq Hrange].
  split; [ apply FloatAxioms.Leibniz.eqb_spec, Heq | exact Hrange ].
Qed.

(** X18: [get_gain] for an RX chain makes one vendor read and no other
    call (it does not enter the config state).  When the chip reports
    a gain-table index between 195 and 255, the value returned is the
    grid gain [(index - 195) * 0.5] dB, which lies in [0, 30]. *)
Theorem get_gain_rx_on_grid (hw : board) (chain : chain_t) (d : ad937x_device)
    (index out2 : Z) :
  let getter := match chain with ONE => MYKONOS_getRx1Gain | TWO => MYKONOS_getRx2Gain end in
  mykonos hw (trace d) getter = (MYKONOS_ERR_OK, (index, out2)) ->
  195 <= uint8 index <= 255 ->
  get_gain hw RX_DIRECTION chain d
    = (Return (rx_half_step (uint8 index - 195)), log (Api getter) d) /\
  in_rx_gain_range (rx_half_step (uint8 index - 195)) = true.
Proof.
  cbv zeta. intros Hq Hrange.
  destruct (rx_decode_on_grid (uint8 index) Hrange) as [Hdec Hin].
  split; [ | exact Hin ].
  unfold get_gain. destruct chain; cbv zeta.
  - rewrite (bind_Return _ _ _ (index, out2) (log (Api MYKONOS_getRx1Gain) d)).
    + unfold ret. cbn [fst]. rewrite Hdec. reflexivity.
    + rewrite call_api_ok; rewrite Hq; reflexivity.
  - rewrite (bind_Return _ _ _ (index, out2) (log (Api MYKONOS_getRx2Gain) d)).
    + unfold ret. cbn [fst]. rewrite Hdec. reflexivity.
    + rewrite call_api_ok; rewrite Hq; reflexivity.
Qed.

Lemma get_gain_rx_on_grid_witness :
  195 <= uint8 220 <= 255 /\
  get_gain (readback_board 220) RX_DIRECTION TWO bench_device
    = (Return (rx_half_step (uint8 220 - 195)), log (Api MYKONOS_getRx2Gain) bench_device) /\
  rx_half_step (uint8 220 - 195) = 12.5%float.
Proof.
  assert (195 <= uint8 220 <= 255) as H by (vm_compute; split; discriminate).
  split; [ exact H | ]. split; [ | reflexivity ].
  exact (proj1 (get_gain_rx_on_grid (readback_board 220) TWO bench_device 220 0 eq_refl H)).
Defined.
